(** * confluent_kafka.schema_registry.json_schema

    A shallow embedding of [JsonSerializer] and [JsonDeserializer]
    (src/confluent_kafka/schema_registry/json_schema.py) and the properties
    of the wire format they implement:

      byte 0      magic byte
      bytes 1-4   schema id, unsigned, big endian
      bytes 5..   JSON document

    The module passes the third argument of [json.dump] by position, lets
    [json.dump] write into a [BytesIO] and gives [json.loads] an encoding:
    it is written against the [json] of Python 2.7, where
    [json.dump(obj, fp, skipkeys, ...)] takes its options positionally and
    writes [str] chunks, which are bytes.  That is the [json] modelled
    here.  Python values are restricted to [None], booleans, integers,
    strings, lists, tuples and dicts with string keys: there are no
    floating point numbers, and the characters of a string are the code
    points U+0000 to U+00FF.

    A call is a function of the instance and of the log of registry calls
    made so far, and returns both as they are afterwards, next to what the
    call returned or raised. *)

From Stdlib Require Import ZArith Ascii String List Lia Bool.
From Stdlib Require Import DecimalZ DecimalPos DecimalN DecimalFacts.
From Stdlib.Strings Require Import Byte.
From stdpp Require Import base gmap strings list.

Local Open Scope Z_scope.

(** ** Python values and exceptions *)

(** The values of the model: what [json] reads, floating point numbers
    aside, and tuples, which [json] writes as it writes lists.  A [dict]
    keeps its items in insertion order; its keys are strings. *)
Unset Elimination Schemes.
Inductive PyVal : Type :=
| VNone
| VBool (b : bool)
| VInt (n : Z)
| VStr (s : string)
| VList (l : list PyVal)
| VTuple (l : list PyVal)
| VDict (d : list (string * PyVal)).
Set Elimination Schemes.

(** An arbitrary argument of a constructor: [None], a few atoms, or a
    callable of type [F]. *)
Inductive pyobj (F : Type) : Type :=
| ONone
| OBool (b : bool)
| OInt (n : Z)
| OStr (s : string)
| OCallable (f : F).

Arguments ONone {F}.
Arguments OBool {F} b.
Arguments OInt {F} n.
Arguments OStr {F} s.
Arguments OCallable {F} f.

Inductive exn : Type :=
| ValueError (msg : string)
  (* ValueError("Unrecognized properties: {}".format(conf_copy.keys())) *)
| ValueError_Unrecognized (keys : list string)
| TypeError (msg : string)
| AttributeError (msg : string)
| KeyError (key : string)
| StructError (msg : string)
  (* jsonschema.ValidationError, with its [message] *)
| ValidationError (message : string)
| SerializationError (msg : string)
  (* SerializationError("message is too small to decode {}".format(value)) *)
| SerializationError_TooSmall (value : list byte)
  (* whatever a collaborator (registry client, hook) raises *)
| CollaboratorError (name : string).

Inductive result (A : Type) : Type :=
| Ok (a : A)
| Raise (e : exn).

Arguments Ok {A} a.
Arguments Raise {A} e.

(** [o is None] *)
Definition is_ONone {F : Type} (o : pyobj F) : bool :=
  match o with ONone => true | _ => false end.

Definition callable {F : Type} (o : pyobj F) : bool :=
  match o with OCallable _ => true | _ => false end.

(** [v is None] *)
Definition is_None (v : PyVal) : bool :=
  match v with VNone => true | _ => false end.

(** [isinstance(o, bool)] *)
Definition isinstance_bool {F : Type} (o : pyobj F) : bool :=
  match o with OBool _ => true | _ => false end.

(** ** struct: the format '>bI' *)

Definition byte_of_Z (z : Z) : byte :=
  match Byte.of_N (Z.to_N (z mod 256)) with
  | Some b => b
  | None => x00
  end.

Definition Z_of_byte (b : byte) : Z := Z.of_N (Byte.to_N b).

(** Signed reading of one byte (format [b]). *)
Definition signed_byte (b : byte) : Z :=
  let z := Z_of_byte b in if z <? 128 then z else z - 256.

(** Unsigned big-endian reading of four bytes (format [>I]). *)
Definition big_endian_u32 (bs : list byte) : Z :=
  match bs with
  | [b1; b2; b3; b4] =>
      Z.lor (Z.shiftl (Z_of_byte b1) 24)
        (Z.lor (Z.shiftl (Z_of_byte b2) 16)
           (Z.lor (Z.shiftl (Z_of_byte b3) 8) (Z_of_byte b4)))
  | _ => 0
  end.

(** [struct.pack('>bI', b, i)]: [b] must fit a signed char and [i] must
    be an integer that fits an unsigned 32-bit word. *)
Definition struct_pack_bI (b : Z) (i : option Z) : result (list byte) :=
  if negb ((-128 <=? b) && (b <=? 127))
  then Raise (StructError "byte format requires -128 <= number <= 127")
  else match i with
       | None => Raise (StructError "cannot convert argument to integer")
       | Some n =>
           if (0 <=? n) && (n <? 2 ^ 32)
           then Ok [byte_of_Z b;
                    byte_of_Z (Z.shiftr n 24);
                    byte_of_Z (Z.shiftr n 16);
                    byte_of_Z (Z.shiftr n 8);
                    byte_of_Z n]
           else Raise (StructError "'I' format requires 0 <= number <= 4294967295")
       end.

(** [struct.unpack('>bI', bs)] *)
Definition struct_unpack_bI (bs : list byte) : result (Z * Z) :=
  match bs with
  | [b0; b1; b2; b3; b4] => Ok (signed_byte b0, big_endian_u32 [b1; b2; b3; b4])
  | _ => Raise (StructError "unpack requires a string argument of length 5")
  end.

(** ** io.BytesIO, as [_ContextStringIO] uses it *)

Record _ContextStringIO : Type := BytesIO { buffer : list byte; pos : nat }.

Definition BytesIO_new (initial : list byte) : _ContextStringIO :=
  {| buffer := initial; pos := 0 |}.

(** [fo.write(data)]: overwrite from the position on, extending the buffer. *)
Definition write (data : list byte) (fo : _ContextStringIO) : _ContextStringIO :=
  {| buffer := take (pos fo) (buffer fo) ++ data
               ++ drop (pos fo + length data)%nat (buffer fo);
     pos := (pos fo + length data)%nat |}.

Definition getvalue (fo : _ContextStringIO) : list byte := buffer fo.

(** [payload.read(n)] *)
Definition read (n : nat) (fo : _ContextStringIO) : list byte * _ContextStringIO :=
  (take n (drop (pos fo) (buffer fo)),
   {| buffer := buffer fo;
      pos := Nat.min (pos fo + n) (length (buffer fo)) |}).

(** [payload.read()] *)
Definition read_all (fo : _ContextStringIO) : list byte * _ContextStringIO :=
  (drop (pos fo) (buffer fo),
   {| buffer := buffer fo; pos := Nat.max (pos fo) (length (buffer fo)) |}).

(** ** dict *)

(** [d[k] = v]: a present key keeps its place, a new key goes last. *)
Fixpoint dict_set (k : string) (v : PyVal) (d : list (string * PyVal))
  : list (string * PyVal) :=
  match d with
  | [] => [(k, v)]
  | (k', v') :: d' =>
      if String.eqb k k' then (k, v) :: d' else (k', v') :: dict_set k v d'
  end.

(** [dict(pairs)] *)
Definition dict (pairs : list (string * PyVal)) : list (string * PyVal) :=
  fold_left (fun d kv => dict_set (fst kv) (snd kv) d) pairs [].

(** [d.get(k, None)] *)
Fixpoint dict_get (k : string) (d : list (string * PyVal)) : PyVal :=
  match d with
  | [] => VNone
  | (k', v) :: d' => if String.eqb k k' then v else dict_get k d'
  end.

Fixpoint distinct (ks : list string) : bool :=
  match ks with
  | [] => true
  | k :: ks' => negb (existsb (String.eqb k) ks') && distinct ks'
  end.

(** A value is well formed when [json.loads] can return it: there is no
    tuple inside it, and no [dict] inside it has a key twice. *)
Fixpoint well_formed (v : PyVal) : bool :=
  match v with
  | VList l => forallb well_formed l
  | VTuple _ => false
  | VDict d =>
      distinct (map fst d) && forallb (fun kv => well_formed (snd kv)) d
  | _ => true
  end.

(** ** json.encoder *)

Definition chars (s : string) : list ascii := list_ascii_of_string s.

(** The double quote, U+0022. *)
Definition quote_char : ascii :=
  Ascii false true false false false true false false.

Definition hex_char (n : N) : ascii :=
  if (n <? 10)%N then ascii_of_N (48 + n) else ascii_of_N (87 + n).

(** [ESCAPE_ASCII] with [ESCAPE_DCT]: what one character of a string is
    written as when [ensure_ascii] holds. *)
Definition escape_ascii (c : ascii) : list ascii :=
  let n := N_of_ascii c in
  if Ascii.eqb c quote_char then ["\"%char; quote_char]
  else if Ascii.eqb c "\" then chars "\\"
  else if (n =? 8)%N then chars "\b"
  else if (n =? 12)%N then chars "\f"
  else if (n =? 10)%N then chars "\n"
  else if (n =? 13)%N then chars "\r"
  else if (n =? 9)%N then chars "\t"
  else if (32 <=? n)%N && (n <=? 126)%N then [c]
  else chars "\u00" ++ [hex_char (n / 16); hex_char (n mod 16)].

Definition encode_basestring_ascii (s : string) : list ascii :=
  quote_char :: flat_map escape_ascii (list_ascii_of_string s) ++ [quote_char].

Definition digit_char (d : N) : ascii := ascii_of_N (48 + d).

Fixpoint chars_of_uint (u : Decimal.uint) : list ascii :=
  match u with
  | Decimal.Nil => []
  | Decimal.D0 u' => digit_char 0 :: chars_of_uint u'
  | Decimal.D1 u' => digit_char 1 :: chars_of_uint u'
  | Decimal.D2 u' => digit_char 2 :: chars_of_uint u'
  | Decimal.D3 u' => digit_char 3 :: chars_of_uint u'
  | Decimal.D4 u' => digit_char 4 :: chars_of_uint u'
  | Decimal.D5 u' => digit_char 5 :: chars_of_uint u'
  | Decimal.D6 u' => digit_char 6 :: chars_of_uint u'
  | Decimal.D7 u' => digit_char 7 :: chars_of_uint u'
  | Decimal.D8 u' => digit_char 8 :: chars_of_uint u'
  | Decimal.D9 u' => digit_char 9 :: chars_of_uint u'
  end.

(** [str(n)] for an integer *)
Definition str_int (n : Z) : list ascii :=
  match Z.to_int n with
  | Decimal.Pos u => chars_of_uint u
  | Decimal.Neg u => "-"%char :: chars_of_uint u
  end.

Definition item_separator : list ascii := chars ", ".
Definition key_separator : list ascii := chars ": ".

Section Items.
Context {A : Type} (encode : A -> list ascii).

(** The items after the first one, each behind the separator. *)
Fixpoint encode_rest (l : list A) : list ascii :=
  match l with
  | [] => []
  | x :: l' => item_separator ++ encode x ++ encode_rest l'
  end.

Definition encode_items (l : list A) : list ascii :=
  match l with
  | [] => []
  | x :: l' => encode x ++ encode_rest l'
  end.
End Items.

(** [_iterencode], all chunks concatenated.  Keys are strings, so the
    [skipkeys] branch of [_iterencode_dict] is never taken. *)
Fixpoint _iterencode (o : PyVal) : list ascii :=
  match o with
  | VStr s => encode_basestring_ascii s
  | VNone => chars "null"
  | VBool true => chars "true"
  | VBool false => chars "false"
  | VInt n => str_int n
  | VList lst | VTuple lst =>
      match lst with
      | [] => chars "[]"
      | _ => "["%char :: encode_items _iterencode lst ++ ["]"%char]
      end
  | VDict dct =>
      match dct with
      | [] => chars "{}"
      | _ =>
          "{"%char ::
          encode_items
            (fun kv => encode_basestring_ascii (fst kv) ++ key_separator
                       ++ _iterencode (snd kv)) dct
          ++ ["}"%char]
      end
  end.

(** A [str] is a byte string: each character is one byte. *)
Definition bytes_of_chars (s : list ascii) : list byte := map byte_of_ascii s.
Definition chars_of_bytes (b : list byte) : list ascii := map ascii_of_byte b.

(** [json.dump(obj, fp, skipkeys)]: every chunk is written to [fp].
    [skipkeys] says what to do with a key that is not a string, a number,
    a boolean or [None]; the keys of this model are strings, so it decides
    nothing. *)
Definition json_dump (obj : PyVal) (fp : _ContextStringIO) (skipkeys : PyVal)
  : _ContextStringIO :=
  write (bytes_of_chars (_iterencode obj)) fp.

(** ** json.decoder *)

(** [WHITESPACE_STR = ' \t\n\r'] *)
Definition is_ws (c : ascii) : bool :=
  let n := N_of_ascii c in
  (n =? 32)%N || (n =? 9)%N || (n =? 10)%N || (n =? 13)%N.

Fixpoint skip_ws (s : list ascii) : list ascii :=
  match s with
  | c :: r => if is_ws c then skip_ws r else s
  | [] => []
  end.

Definition is_digit (c : ascii) : bool :=
  let n := N_of_ascii c in (48 <=? n)%N && (n <=? 57)%N.

Definition hex_value (c : ascii) : option N :=
  let n := N_of_ascii c in
  if (48 <=? n)%N && (n <=? 57)%N then Some (n - 48)%N
  else if (97 <=? n)%N && (n <=? 102)%N then Some (n - 87)%N
  else if (65 <=? n)%N && (n <=? 70)%N then Some (n - 55)%N
  else None.

(** The table [BACKSLASH] of the one-letter escapes. *)
Definition BACKSLASH (esc : ascii) : option ascii :=
  if Ascii.eqb esc quote_char then Some quote_char
  else if Ascii.eqb esc "\" then Some "\"%char
  else if Ascii.eqb esc "/" then Some "/"%char
  else if Ascii.eqb esc "b" then Some (ascii_of_N 8)
  else if Ascii.eqb esc "f" then Some (ascii_of_N 12)
  else if Ascii.eqb esc "n" then Some (ascii_of_N 10)
  else if Ascii.eqb esc "r" then Some (ascii_of_N 13)
  else if Ascii.eqb esc "t" then Some (ascii_of_N 9)
  else None.

(** [scanstring], strict, from the character after the opening quote:
    the string and what follows its closing quote.  A byte above 0x7f
    starts a UTF-8 sequence and an escape above ÿ names a code point
    that the strings of this model do not have: both are refused. *)
Fixpoint scanstring (s : list ascii) : option (string * list ascii) :=
  match s with
  | [] => None
  | c :: r =>
      if Ascii.eqb c quote_char then Some (EmptyString, r)
      else if Ascii.eqb c "\" then
        match r with
        | [] => None
        | esc :: r1 =>
            if Ascii.eqb esc "u" then
              match r1 with
              | h1 :: h2 :: h3 :: h4 :: r2 =>
                  match hex_value h1, hex_value h2, hex_value h3, hex_value h4 with
                  | Some a, Some b, Some c', Some d =>
                      let uni := (((a * 16 + b) * 16 + c') * 16 + d)%N in
                      if (uni <? 256)%N then
                        match scanstring r2 with
                        | Some (t, rest) => Some (String (ascii_of_N uni) t, rest)
                        | None => None
                        end
                      else None
                  | _, _, _, _ => None
                  end
              | _ => None
              end
            else
              match BACKSLASH esc with
              | Some ch =>
                  match scanstring r1 with
                  | Some (t, rest) => Some (String ch t, rest)
                  | None => None
                  end
              | None => None
              end
        end
      else if (N_of_ascii c <? 32)%N then None
      else if (127 <? N_of_ascii c)%N then None
      else
        match scanstring r with
        | Some (t, rest) => Some (String c t, rest)
        | None => None
        end
  end.

Definition uint_cons (c : ascii) : option (Decimal.uint -> Decimal.uint) :=
  match N_of_ascii c with
  | 48%N => Some Decimal.D0
  | 49%N => Some Decimal.D1
  | 50%N => Some Decimal.D2
  | 51%N => Some Decimal.D3
  | 52%N => Some Decimal.D4
  | 53%N => Some Decimal.D5
  | 54%N => Some Decimal.D6
  | 55%N => Some Decimal.D7
  | 56%N => Some Decimal.D8
  | 57%N => Some Decimal.D9
  | _ => None
  end.

(** The digits at the head of [s] and what follows them. *)
Fixpoint scan_digits (s : list ascii) : Decimal.uint * list ascii :=
  match s with
  | [] => (Decimal.Nil, [])
  | c :: r =>
      match uint_cons c with
      | Some D => let (u, rest) := scan_digits r in (D u, rest)
      | None => (Decimal.Nil, s)
      end
  end.

(** The integer group of [NUMBER_RE]: a single 0, or a digit from 1 to 9
    and the digits after it. *)
Definition match_digits (s : list ascii) : option (Decimal.uint * list ascii) :=
  match s with
  | [] => None
  | c :: r =>
      if Ascii.eqb c "0" then Some (Decimal.D0 Decimal.Nil, r)
      else if is_digit c then Some (scan_digits s)
      else None
  end.

(** The fraction group of [NUMBER_RE] matches: a dot and a digit. *)
Definition has_frac (s : list ascii) : bool :=
  match s with
  | c :: d :: _ => Ascii.eqb c "." && is_digit d
  | _ => false
  end.

(** The exponent group of [NUMBER_RE] matches: e or E, an optional sign
    and a digit. *)
Definition has_exp (s : list ascii) : bool :=
  match s with
  | e :: r =>
      (Ascii.eqb e "e" || Ascii.eqb e "E") &&
      match r with
      | d :: r' =>
          is_digit d ||
          ((Ascii.eqb d "-" || Ascii.eqb d "+") &&
           match r' with d' :: _ => is_digit d' | [] => false end)
      | [] => false
      end
  | [] => false
  end.

(** [match_number]: an integer and what follows it.  A number with a
    fraction or an exponent is a float, which this model does not have. *)
Definition match_number (s : list ascii) : option (PyVal * list ascii) :=
  let signed := match s with
                | c :: r => if Ascii.eqb c "-" then (true, r) else (false, s)
                | [] => (false, s)
                end in
  match match_digits (snd signed) with
  | None => None
  | Some (u, rest) =>
      if has_frac rest || has_exp rest then None
      else Some (VInt (if fst signed then - Z.of_uint u else Z.of_uint u), rest)
  end.

(** [s] without the prefix [p], when it starts with it. *)
Fixpoint strip_prefix (p s : list ascii) : option (list ascii) :=
  match p, s with
  | [], _ => Some s
  | a :: p', b :: s' => if Ascii.eqb a b then strip_prefix p' s' else None
  | _ :: _, [] => None
  end.

(** [scan_once] with [JSONArray] and [JSONObject]; every call takes one
    unit of [fuel].  [array_loop] starts at an item, [object_loop] after
    the opening quote of a key. *)
Fixpoint scan_once (fuel : nat) (s : list ascii) {struct fuel}
  : option (PyVal * list ascii) :=
  match fuel with
  | O => None
  | S fuel' =>
      match s with
      | [] => None
      | nextchar :: r =>
          if Ascii.eqb nextchar quote_char then
            match scanstring r with
            | Some (str, rest) => Some (VStr str, rest)
            | None => None
            end
          else if Ascii.eqb nextchar "{" then
            let r := if Ascii.eqb (hd " "%char r) quote_char then r else skip_ws r in
            match r with
            | [] => None
            | c :: r' =>
                if Ascii.eqb c "}" then Some (VDict (dict []), r')
                else if Ascii.eqb c quote_char then
                  match object_loop fuel' r' with
                  | Some (pairs, rest) => Some (VDict (dict pairs), rest)
                  | None => None
                  end
                else None
            end
          else if Ascii.eqb nextchar "[" then
            match skip_ws r with
            | [] => None
            | c :: r' =>
                if Ascii.eqb c "]" then Some (VList [], r')
                else
                  match array_loop fuel' (c :: r') with
                  | Some (values, rest) => Some (VList values, rest)
                  | None => None
                  end
            end
          else
            match strip_prefix (chars "null") s with
            | Some rest => Some (VNone, rest)
            | None =>
                match strip_prefix (chars "true") s with
                | Some rest => Some (VBool true, rest)
                | None =>
                    match strip_prefix (chars "false") s with
                    | Some rest => Some (VBool false, rest)
                    | None => match_number s
                    end
                end
            end
      end
  end
with array_loop (fuel : nat) (s : list ascii) {struct fuel}
  : option (list PyVal * list ascii) :=
  match fuel with
  | O => None
  | S fuel' =>
      match scan_once fuel' s with
      | None => None
      | Some (value, r) =>
          match skip_ws r with
          | [] => None
          | c :: r' =>
              if Ascii.eqb c "]" then Some ([value], r')
              else if Ascii.eqb c "," then
                match array_loop fuel' (skip_ws r') with
                | Some (values, rest) => Some (value :: values, rest)
                | None => None
                end
              else None
          end
      end
  end
with object_loop (fuel : nat) (s : list ascii) {struct fuel}
  : option (list (string * PyVal) * list ascii) :=
  match fuel with
  | O => None
  | S fuel' =>
      match scanstring s with
      | None => None
      | Some (key, r) =>
          match skip_ws r with
          | [] => None
          | c :: r1 =>
              if Ascii.eqb c ":" then
                match scan_once fuel' (skip_ws r1) with
                | None => None
                | Some (value, r2) =>
                    match skip_ws r2 with
                    | [] => None
                    | c' :: r3 =>
                        if Ascii.eqb c' "}" then Some ([(key, value)], r3)
                        else if Ascii.eqb c' "," then
                          match skip_ws r3 with
                          | [] => None
                          | q :: r4 =>
                              if Ascii.eqb q quote_char then
                                match object_loop fuel' r4 with
                                | Some (pairs, rest) =>
                                    Some ((key, value) :: pairs, rest)
                                | None => None
                                end
                              else None
                          end
                        else None
                    end
                end
              else None
          end
      end
  end.

(** [json.loads(s, encoding)]: one document between optional white space.
    No call chain is longer than twice the text, so the fuel is never
    what stops the scan.  The message of the [ValueError] says where the
    text went wrong, which is not modelled.

    This is [json.loads] on the documents whose values this model has:
    numbers are integers and strings hold the code points up to U+00FF,
    written in ASCII.  A document with a fraction, an exponent, [NaN],
    [Infinity], a byte above 0x7f or an escape above 00ff is read by
    [json.loads] and refused here, so a [Raise] of this function says
    nothing about such a document; what it returns with [Ok] is what
    [json.loads] returns. *)
Definition json_loads (s : list byte) : result PyVal :=
  let text := chars_of_bytes s in
  match scan_once (2 * length text) (skip_ws text) with
  | None => Raise (ValueError "No JSON object could be decoded")
  | Some (obj, rest) =>
      match skip_ws rest with
      | [] => Ok obj
      | _ :: _ => Raise (ValueError "Extra data")
      end
  end.

(** [json.dumps(obj)] as bytes. *)
Definition json_dumps (obj : PyVal) : list byte :=
  bytes_of_chars (_iterencode obj).

(** ** Collaborators *)

(** [SerializationContext]: the topic and the message field ("key" or
    "value") of the message at hand. *)
Record SerializationContext : Type := { topic : string; field : string }.

(** Modelled from the spec: [confluent_kafka.schema_registry.Schema], the
    raw schema text and its type tag. *)
Record Schema : Type := { schema_str : string; schema_type : string }.

(** Modelled from the spec: [confluent_kafka.schema_registry._MAGIC_BYTE],
    the fixed magic marker 0x00. *)
Definition _MAGIC_BYTE : Z := 0.

(** A subject name strategy, [Callable(SerializationContext, str) -> str]. *)
Definition strategy : Type := SerializationContext -> PyVal -> string.

(** A [to_dict] or [from_dict] hook, which may raise. *)
Definition hook : Type := SerializationContext -> PyVal -> result PyVal.

(** Modelled from the spec: [topic_subject_name_strategy], the topic name
    and the message field joined by a hyphen. *)
Definition topic_subject_name_strategy : strategy :=
  fun ctx record_name => (topic ctx ++ "-" ++ field ctx)%string.

(** What [lookup_schema] returns. *)
Record RegisteredSchema : Type := { schema_id : Z }.

(** One call of the registry client and what it answered. *)
Inductive RegistryEvent : Type :=
| register_schema_called (subject : string) (schema : Schema) (r : result Z)
| lookup_schema_called (subject : string) (schema : Schema)
    (r : result RegisteredSchema).

(** Modelled from the spec: the registry client,
    [register(subject, schema) -> schema_id] and
    [lookup(subject, schema) -> {schema_id}], either of which may fail.
    What a call answers may depend on the calls made before it. *)
Record SchemaRegistryClient : Type := {
  register_schema : list RegistryEvent -> string -> Schema -> result Z;
  lookup_schema : list RegistryEvent -> string -> Schema -> result RegisteredSchema
}.

(** The call returned instead of raising. *)
Definition answered (ev : RegistryEvent) : bool :=
  match ev with
  | register_schema_called _ _ (Ok _) => true
  | lookup_schema_called _ _ (Ok _) => true
  | _ => false
  end.

(** ** JsonSerializer *)

Module JsonSerializer.

(** The slots of an instance ([_hash] is never assigned). *)
Record t : Type := {
  _auto_register : bool;
  _known_subjects : gset string;
  _parsed_schema : PyVal;
  _registry : SchemaRegistryClient;
  _schema : Schema;
  _schema_id : option Z;
  _schema_name : PyVal;
  _subject_name_func : strategy;
  _to_dict : option hook
}.

Definition _default_conf : gmap string (pyobj strategy) :=
  <["auto.register.schemas"%string := OBool true]>
    (<["subject.name.strategy"%string := OCallable topic_subject_name_strategy]> ∅).

(** [JsonSerializer(schema_registry_client, schema_str, to_dict, conf)] *)
Definition __init__ (schema_registry_client : SchemaRegistryClient)
    (schema_str : string) (to_dict : pyobj hook)
    (conf : option (gmap string (pyobj strategy))) : result t :=
  if negb (is_ONone to_dict) && negb (callable to_dict) then
    Raise (ValueError "to_dict must be callable with the signature to_dict(Serialization Context, object)->dict")
  else
      let conf_copy := _default_conf in
      let conf_copy := match conf with
                       | Some conf => conf ∪ conf_copy
                       | None => conf_copy
                       end in
      match conf_copy !! "auto.register.schemas"%string with
      | None => Raise (KeyError "auto.register.schemas")
      | Some auto_register =>
          let conf_copy := delete "auto.register.schemas"%string conf_copy in
          match auto_register with
          | OBool auto_register =>
              match conf_copy !! "subject.name.strategy"%string with
              | None => Raise (KeyError "subject.name.strategy")
              | Some subject_name_func =>
                  let conf_copy := delete "subject.name.strategy"%string conf_copy in
                  match subject_name_func with
                  | OCallable subject_name_func =>
                      if (0 <? size conf_copy)%nat
                      then Raise (ValueError_Unrecognized (map fst (map_to_list conf_copy)))
                      else
                        match json_loads (bytes_of_chars (chars schema_str)) with
                        | Raise e => Raise e
                        | Ok schema_dict =>
                            match schema_dict with
                            | VDict items =>
                                let schema_name := dict_get "title" items in
                                if is_None schema_name then
                                  Raise (ValueError "Missing required JSON schema annotation Title")
                                else
                                    Ok {| _registry := schema_registry_client;
                                          _schema_id := None;
                                          _known_subjects := ∅;
                                          _to_dict := match to_dict with
                                                      | OCallable f => Some f
                                                      | _ => None
                                                      end;
                                          _auto_register := auto_register;
                                          _subject_name_func := subject_name_func;
                                          _schema_name := schema_name;
                                          _parsed_schema := schema_dict;
                                          _schema := {| schema_str := schema_str;
                                                        schema_type := "JSON" |} |}
                            | _ => Raise (AttributeError "object has no attribute 'get'")
                            end
                        end
                  | _ => Raise (ValueError "subject.name.strategy must be callable")
                  end
              end
          | _ => Raise (ValueError "auto.register.schemas must be a boolean value")
          end
      end.

Definition set_registered (self : t) (id : Z) (subject : string) : t :=
  {| _auto_register := _auto_register self;
     _known_subjects := {[subject]} ∪ _known_subjects self;
     _parsed_schema := _parsed_schema self;
     _registry := _registry self;
     _schema := _schema self;
     _schema_id := Some id;
     _schema_name := _schema_name self;
     _subject_name_func := _subject_name_func self;
     _to_dict := _to_dict self |}.

(** The check that the schema is registered under the subject: the
    instance and the log of registry calls after it, and the exception
    when the registry raised. *)
Definition ensure_registered (self : t) (log : list RegistryEvent)
    (subject : string) : option exn * t * list RegistryEvent :=
  if _auto_register self && negb (bool_decide (subject ∈ _known_subjects self))
  then
    let r := register_schema (_registry self) log subject (_schema self) in
    let log := log ++ [register_schema_called subject (_schema self) r] in
    match r with
    | Raise e => (Some e, self, log)
    | Ok id => (None, set_registered self id subject, log)
    end
  else if negb (_auto_register self)
          && negb (bool_decide (subject ∈ _known_subjects self))
  then
    let r := lookup_schema (_registry self) log subject (_schema self) in
    let log := log ++ [lookup_schema_called subject (_schema self) r] in
    match r with
    | Raise e => (Some e, self, log)
    | Ok registered_schema =>
        (None, set_registered self (schema_id registered_schema) subject, log)
    end
  else (None, self, log).

Section Call.

(** [jsonschema.validate(instance, schema)]: [None] when it returns,
    the exception when it raises. *)
Variable validate : PyVal -> PyVal -> option exn.

(** [serializer(ctx, obj)]: what is returned or raised, the instance
    and the log of registry calls afterwards. *)
Definition __call__ (self : t) (log : list RegistryEvent)
    (ctx : SerializationContext) (obj : PyVal)
  : result (option (list byte)) * t * list RegistryEvent :=
  if is_None obj then (Ok None, self, log)
  else
    let subject := _subject_name_func self ctx (_schema_name self) in
    match ensure_registered self log subject with
    | (Some e, self, log) => (Raise e, self, log)
    | (None, self, log) =>
        match match _to_dict self with
              | Some to_dict => to_dict ctx obj
              | None => Ok obj
              end with
        | Raise e => (Raise e, self, log)
        | Ok value =>
            match validate value (_parsed_schema self) with
            | Some (ValidationError message) =>
                (Raise (SerializationError message), self, log)
            | Some e => (Raise e, self, log)
            | None =>
                let fo := BytesIO_new [] in
                match struct_pack_bI _MAGIC_BYTE (_schema_id self) with
                | Raise e => (Raise e, self, log)
                | Ok header =>
                    let fo := write header fo in
                    let fo := json_dump value fo value in
                    (Ok (Some (getvalue fo)), self, log)
                end
            end
        end
    end.

End Call.
End JsonSerializer.

(** ** JsonDeserializer *)

Module JsonDeserializer.

Record t : Type := {
  _schema : PyVal;
  _registry : SchemaRegistryClient;
  _from_dict : option hook
}.

(** [JsonDeserializer(schema_registry_client, schema_str, from_dict)] *)
Definition __init__ (schema_registry_client : SchemaRegistryClient)
    (schema_str : string) (from_dict : pyobj hook) : result t :=
  match json_loads (bytes_of_chars (chars schema_str)) with
  | Raise e => Raise e
  | Ok schema =>
      if negb (is_ONone from_dict) && negb (callable from_dict) then
        Raise (ValueError "from_dict must be callable with the signature from_dict(SerializationContext, dict) -> object")
      else
        Ok {| _registry := schema_registry_client;
              _schema := schema;
              _from_dict := match from_dict with
                            | OCallable f => Some f
                            | _ => None
                            end |}
  end.

(** [deserializer(ctx, value)], where [value] is [None] or bytes. *)
Definition __call__ (self : t) (ctx : SerializationContext)
    (value : option (list byte)) : result PyVal :=
  match value with
  | None => Raise (TypeError "object of type 'NoneType' has no len()")
  | Some value =>
      if (length value <=? 5)%nat then Raise (SerializationError_TooSmall value)
      else
        let payload := BytesIO_new value in
        let (header, payload) := read 5 payload in
        match struct_unpack_bI header with
        | Raise e => Raise e
        | Ok (magic, schema_id) =>
            if negb (magic =? _MAGIC_BYTE)
            then Raise (SerializationError "message does not start with magic byte")
            else
              let (document, payload) := read_all payload in
              match json_loads document with
              | Raise e => Raise e
              | Ok obj_dict =>
                  match _from_dict self with
                  | Some from_dict => from_dict ctx obj_dict
                  | None => Ok obj_dict
                  end
              end
        end
  end.

End JsonDeserializer.

(** ** Runs of several calls *)

(** [serializer(ctx, obj)] for each message in turn, whatever each call
    returns or raises. *)
Fixpoint encode_all (validate : PyVal -> PyVal -> option exn)
    (self : JsonSerializer.t) (log : list RegistryEvent)
    (messages : list (SerializationContext * PyVal))
  : list (result (option (list byte))) * JsonSerializer.t * list RegistryEvent :=
  match messages with
  | [] => ([], self, log)
  | (ctx, obj) :: messages' =>
      let '(r, self, log) := JsonSerializer.__call__ validate self log ctx obj in
      let '(rs, self, log) := encode_all validate self log messages' in
      (r :: rs, self, log)
  end.

(** The id a registry call returned. *)
Definition returned_id (ev : RegistryEvent) : option Z :=
  match ev with
  | register_schema_called _ _ (Ok id) => Some id
  | lookup_schema_called _ _ (Ok registered_schema) =>
      Some (schema_id registered_schema)
  | _ => None
  end.

(** The id returned by the most recent call that returned, if any. *)
Fixpoint latest_id (events : list RegistryEvent) (otherwise : option Z)
  : option Z :=
  match events with
  | [] => otherwise
  | ev :: events' =>
      latest_id events'
        (match returned_id ev with Some id => Some id | None => otherwise end)
  end.

(** ** Instances for the examples *)

Module Demo.

Definition ctx : SerializationContext := {| topic := "users"; field := "value" |}.
Definition ctx_orders : SerializationContext := {| topic := "orders"; field := "value" |}.

(** The schema of the scenarios: an object with a required string
    member [name], titled User. *)
Definition user_schema : PyVal :=
  VDict [("title"%string, VStr "User");
         ("type"%string, VStr "object");
         ("properties"%string,
          VDict [("name"%string, VDict [("type"%string, VStr "string")])]);
         ("required"%string, VList [VStr "name"])].

Definition user_schema_str : string :=
  string_of_list_ascii (_iterencode user_schema).

Definition has_key (k : string) (d : list (string * PyVal)) : bool :=
  existsb (String.eqb k) (map fst d).

Fixpoint missing (required : list PyVal) (d : list (string * PyVal))
  : option string :=
  match required with
  | [] => None
  | VStr k :: required' => if has_key k d then missing required' d else Some k
  | _ :: required' => missing required' d
  end.

(** A validator that knows the keywords [type: object] and [required]. *)
Definition validate (instance schema : PyVal) : option exn :=
  match schema with
  | VDict keywords =>
      match dict_get "type" keywords, instance with
      | VStr "object", VDict d =>
          match dict_get "required" keywords with
          | VList required =>
              match missing required d with
              | Some k => Some (ValidationError ("'" ++ k ++ "' is a required property"))
              | None => None
              end
          | _ => None
          end
      | VStr "object", _ => Some (ValidationError "instance is not of type 'object'")
      | _, _ => None
      end
  | _ => None
  end.

(** A registry that gives every call a new id: 1, 2, ... *)
Definition counting_registry : SchemaRegistryClient :=
  {| register_schema := fun log _ _ => Ok (Z.of_nat (length log) + 1);
     lookup_schema := fun log _ _ => Ok {| schema_id := Z.of_nat (length log) + 1 |} |}.

(** A registry that cannot be reached. *)
Definition registry_down : SchemaRegistryClient :=
  {| register_schema := fun _ _ _ => Raise (CollaboratorError "SchemaRegistryError");
     lookup_schema := fun _ _ _ => Raise (CollaboratorError "SchemaRegistryError") |}.

Definition new_serializer (registry : SchemaRegistryClient) : JsonSerializer.t :=
  {| JsonSerializer._auto_register := true;
     JsonSerializer._known_subjects := ∅;
     JsonSerializer._parsed_schema := user_schema;
     JsonSerializer._registry := registry;
     JsonSerializer._schema := {| schema_str := user_schema_str; schema_type := "JSON" |};
     JsonSerializer._schema_id := None;
     JsonSerializer._schema_name := VStr "User";
     JsonSerializer._subject_name_func := topic_subject_name_strategy;
     JsonSerializer._to_dict := None |}.

Definition deserializer : JsonDeserializer.t :=
  {| JsonDeserializer._schema := user_schema;
     JsonDeserializer._registry := counting_registry;
     JsonDeserializer._from_dict := None |}.

Definition ada : PyVal := VDict [("name"%string, VStr "Ada")].

(** A registry that answers every call with the same id. *)
Definition registry_answering (id : Z) : SchemaRegistryClient :=
  {| register_schema := fun _ _ _ => Ok id;
     lookup_schema := fun _ _ _ => Ok {| schema_id := id |} |}.

(** A [to_dict] hook: a name becomes the object with that name. *)
Definition name_to_dict : hook :=
  fun _ obj => match obj with
               | VStr name => Ok (VDict [("name"%string, VStr name)])
               | _ => Raise (TypeError "not a name")
               end.

(** A [from_dict] hook: the object with a name becomes the name. *)
Definition name_from_dict : hook :=
  fun _ obj_dict => match obj_dict with
                    | VDict d => Ok (dict_get "name" d)
                    | _ => Raise (TypeError "not an object")
                    end.

Definition with_to_dict (to_dict : hook) (self : JsonSerializer.t) : JsonSerializer.t :=
  {| JsonSerializer._auto_register := JsonSerializer._auto_register self;
     JsonSerializer._known_subjects := JsonSerializer._known_subjects self;
     JsonSerializer._parsed_schema := JsonSerializer._parsed_schema self;
     JsonSerializer._registry := JsonSerializer._registry self;
     JsonSerializer._schema := JsonSerializer._schema self;
     JsonSerializer._schema_id := JsonSerializer._schema_id self;
     JsonSerializer._schema_name := JsonSerializer._schema_name self;
     JsonSerializer._subject_name_func := JsonSerializer._subject_name_func self;
     JsonSerializer._to_dict := Some to_dict |}.

Definition name_deserializer : JsonDeserializer.t :=
  {| JsonDeserializer._schema := user_schema;
     JsonDeserializer._registry := counting_registry;
     JsonDeserializer._from_dict := Some name_from_dict |}.

(** The configuration that turns registration off. *)
Definition lookup_conf : gmap string (pyobj strategy) :=
  <["auto.register.schemas"%string := OBool false]> ∅.

(** A schema with a title and no constraint: every instance satisfies
    it. *)
Definition pair_schema : PyVal := VDict [("title"%string, VStr "Pair")].

Definition pair_schema_str : string :=
  string_of_list_ascii (_iterencode pair_schema).

Definition pair_serializer : JsonSerializer.t :=
  {| JsonSerializer._auto_register := true;
     JsonSerializer._known_subjects := ∅;
     JsonSerializer._parsed_schema := pair_schema;
     JsonSerializer._registry := counting_registry;
     JsonSerializer._schema := {| schema_str := pair_schema_str; schema_type := "JSON" |};
     JsonSerializer._schema_id := None;
     JsonSerializer._schema_name := VStr "Pair";
     JsonSerializer._subject_name_func := topic_subject_name_strategy;
     JsonSerializer._to_dict := None |}.

Definition pair_deserializer : JsonDeserializer.t :=
  {| JsonDeserializer._schema := pair_schema;
     JsonDeserializer._registry := counting_registry;
     JsonDeserializer._from_dict := None |}.

(** The tuple [(1, 2)]. *)
Definition pair : PyVal := VTuple [VInt 1; VInt 2].

(** A schema with numbers, a boolean and [null] in it. *)
Definition order_schema : PyVal :=
  VDict [("title"%string, VStr "Order");
         ("type"%string, VStr "object");
         ("properties"%string,
          VDict [("quantity"%string,
                  VDict [("type"%string, VStr "integer");
                         ("minimum"%string, VInt 1);
                         ("maximum"%string, VInt 1000)]);
                 ("change"%string,
                  VDict [("type"%string, VStr "integer");
                         ("minimum"%string, VInt (-1000))]);
                 ("note"%string,
                  VDict [("type"%string, VList [VStr "string"; VStr "null"]);
                         ("default"%string, VNone)])]);
         ("required"%string, VList [VStr "quantity"]);
         ("additionalProperties"%string, VBool false)].

Definition order_schema_str : string :=
  string_of_list_ascii (_iterencode order_schema).

(** A [to_dict] hook that gives the place of a named point as a tuple. *)
Definition point_to_dict : hook :=
  fun _ obj => match obj with
               | VStr name =>
                   Ok (VDict [("name"%string, VStr name);
                              ("at"%string, VTuple [VInt 0; VInt 0])])
               | _ => Raise (TypeError "not a name")
               end.

End Demo.


(** ** Notions for the statements *)

(** Induction on a value with the hypothesis on every item. *)
Fixpoint PyVal_ind (P : PyVal -> Prop)
    (HNone : P VNone) (HBool : forall b, P (VBool b)) (HInt : forall n, P (VInt n))
    (HStr : forall s, P (VStr s))
    (HList : forall l, Forall P l -> P (VList l))
    (HTuple : forall l, Forall P l -> P (VTuple l))
    (HDict : forall d, Forall (fun kv => P (snd kv)) d -> P (VDict d))
    (v : PyVal) {struct v} : P v :=
  match v with
  | VNone => HNone
  | VBool b => HBool b
  | VInt n => HInt n
  | VStr s => HStr s
  | VList l =>
      HList l ((fix items (l : list PyVal) : Forall P l :=
                  match l with
                  | [] => @List.Forall_nil _ P
                  | x :: l' =>
                      @List.Forall_cons _ P x l'
                        (PyVal_ind P HNone HBool HInt HStr HList HTuple HDict x)
                        (items l')
                  end) l)
  | VTuple l =>
      HTuple l ((fix items (l : list PyVal) : Forall P l :=
                   match l with
                   | [] => @List.Forall_nil _ P
                   | x :: l' =>
                       @List.Forall_cons _ P x l'
                         (PyVal_ind P HNone HBool HInt HStr HList HTuple HDict x)
                         (items l')
                   end) l)
  | VDict d =>
      HDict d ((fix items (d : list (string * PyVal))
                  : Forall (fun kv => P (snd kv)) d :=
                  match d with
                  | [] => @List.Forall_nil _ _
                  | kv :: d' =>
                      @List.Forall_cons _ (fun kv => P (snd kv)) kv d'
                        (PyVal_ind P HNone HBool HInt HStr HList HTuple HDict (snd kv))
                        (items d')
                  end) d)
  end.

(** The characters a document can start with. *)
Definition starts_value (c : ascii) : bool :=
  Ascii.eqb c quote_char || Ascii.eqb c "{" || Ascii.eqb c "[" || Ascii.eqb c "n"
  || Ascii.eqb c "t" || Ascii.eqb c "f" || Ascii.eqb c "-" || is_digit c.

(** What may follow a document: nothing, or a comma or a closing bracket. *)
Definition delimited (rest : list ascii) : Prop :=
  match rest with
  | [] => True
  | c :: _ => c = ","%char \/ c = "]"%char \/ c = "}"%char
  end.

(** A numeral that starts with a digit from 1 to 9. *)
Definition headed (u : Decimal.uint) : Prop :=
  match u with
  | Decimal.Nil | Decimal.D0 _ => False
  | _ => True
  end.

(** No [dict] inside the value has a key twice, as in every [dict] of
    Python. *)
Fixpoint unique_keys (v : PyVal) : bool :=
  match v with
  | VList l | VTuple l => forallb unique_keys l
  | VDict d =>
      distinct (map fst d) && forallb (fun kv => unique_keys (snd kv)) d
  | _ => true
  end.

(** What [json] makes of a value: the value with a list for every tuple
    inside it. *)
Fixpoint as_json (v : PyVal) : PyVal :=
  match v with
  | VList l | VTuple l => VList (map as_json l)
  | VDict d => VDict (map (fun kv => (fst kv, as_json (snd kv))) d)
  | _ => v
  end.

(** The calls [scan_once] needs at most to read a value back. *)
Fixpoint cost (v : PyVal) : nat :=
  match v with
  | VList l | VTuple l => S (list_sum (map (fun x => S (cost x)) l))
  | VDict d => S (list_sum (map (fun kv => S (cost (snd kv))) d))
  | _ => 1
  end.

Definition encode_pair (kv : string * PyVal) : list ascii :=
  encode_basestring_ascii (fst kv) ++ key_separator ++ _iterencode (snd kv).

(** A pair without the opening quote of its key. *)
Definition pair_body (kv : string * PyVal) : list ascii :=
  flat_map escape_ascii (list_ascii_of_string (fst kv))
  ++ quote_char :: key_separator ++ _iterencode (snd kv).

(** [scan_once] reads what was written for [v] as [as_json v], whatever
    follows it. *)
Definition reads_back (v : PyVal) : Prop :=
  unique_keys v = true ->
  forall (fuel : nat) (rest : list ascii),
    (cost v <= fuel)%nat -> delimited rest ->
    scan_once fuel (_iterencode v ++ rest) = Some (as_json v, rest).

(** What [conf] says for a key, if anything. *)
Definition conf_get (conf : option (gmap string (pyobj strategy))) (key : string)
  : option (pyobj strategy) :=
  match conf with
  | Some c => c !! key
  | None => None
  end.

(** The auto-register flag in force: the configured one, by default True. *)
Definition configured_auto_register (conf : option (gmap string (pyobj strategy)))
  : pyobj strategy :=
  default (OBool true) (conf_get conf "auto.register.schemas").

(** The strategy in force: the configured one, by default the topic one. *)
Definition configured_strategy (conf : option (gmap string (pyobj strategy)))
  : pyobj strategy :=
  default (OCallable topic_subject_name_strategy)
    (conf_get conf "subject.name.strategy").

Definition unrecognized_key (conf : option (gmap string (pyobj strategy))) : Prop :=
  exists key, is_Some (conf_get conf key)
              /\ key <> "auto.register.schemas"%string
              /\ key <> "subject.name.strategy"%string.

(** The conditions of a configuration error, for a schema whose title
    annotation is [title] ([None] when it has none). *)
Definition configuration_error (title : PyVal) (to_dict : pyobj hook)
    (conf : option (gmap string (pyobj strategy))) : Prop :=
  is_None title = true
  \/ (is_ONone to_dict = false /\ callable to_dict = false)
  \/ callable (configured_strategy conf) = false
  \/ isinstance_bool (configured_auto_register conf) = false
  \/ unrecognized_key conf.

Definition is_ValueError (e : exn) : bool :=
  match e with
  | ValueError _ | ValueError_Unrecognized _ => true
  | _ => false
  end.

(** The subject a registry call was made for. *)
Definition event_subject (ev : RegistryEvent) : string :=
  match ev with
  | register_schema_called subject _ _ => subject
  | lookup_schema_called subject _ _ => subject
  end.

Definition is_register (ev : RegistryEvent) : bool :=
  match ev with
  | register_schema_called _ _ _ => true
  | lookup_schema_called _ _ _ => false
  end.

(** The exception a registry call raised. *)
Definition raised (ev : RegistryEvent) : option exn :=
  match ev with
  | register_schema_called _ _ (Raise e) => Some e
  | lookup_schema_called _ _ (Raise e) => Some e
  | _ => None
  end.

(** The registry call an instance makes for a subject it does not know:
    [register_schema] when it registers automatically, [lookup_schema]
    otherwise, with its own schema. *)
Definition registry_event (self : JsonSerializer.t) (log : list RegistryEvent)
    (subject : string) : RegistryEvent :=
  if JsonSerializer._auto_register self
  then register_schema_called subject (JsonSerializer._schema self)
         (register_schema (JsonSerializer._registry self) log subject
            (JsonSerializer._schema self))
  else lookup_schema_called subject (JsonSerializer._schema self)
         (lookup_schema (JsonSerializer._registry self) log subject
            (JsonSerializer._schema self)).

(** The structured form of [obj]: what [to_dict] makes of it, or [obj]. *)
Definition structured (self : JsonSerializer.t) (ctx : SerializationContext)
    (obj : PyVal) : result PyVal :=
  match JsonSerializer._to_dict self with
  | Some to_dict => to_dict ctx obj
  | None => Ok obj
  end.

(** What [from_dict] makes of a document, or the document. *)
Definition materialized (de : JsonDeserializer.t) (ctx : SerializationContext)
    (obj_dict : PyVal) : result PyVal :=
  match JsonDeserializer._from_dict de with
  | Some from_dict => from_dict ctx obj_dict
  | None => Ok obj_dict
  end.

(** The messages of a run that are not [None]. *)
Definition not_None (messages : list (SerializationContext * PyVal))
  : list (SerializationContext * PyVal) :=
  List.filter (fun m => negb (is_None (snd m))) messages.

(** An instance that knows a subject holds a schema id. *)
Definition holds_id (self : JsonSerializer.t) : Prop :=
  (exists subject, subject ∈ JsonSerializer._known_subjects self) ->
  is_Some (JsonSerializer._schema_id self).

(** [to_dict] (or [from_dict]) is given and is not callable. *)
Definition bad_hook (h : pyobj hook) : bool :=
  negb (is_ONone h) && negb (callable h).

(** Case analysis on the eight bits of a character. *)
Ltac each_char c :=
  destruct c as [[] [] [] [] [] [] [] []].


(** * Properties *)

(** ** Bytes and the header *)

Lemma Z_of_byte_range (b : byte) : 0 <= Z_of_byte b < 256.
Proof.
  unfold Z_of_byte. pose proof (Byte.to_N_bounded b). lia.
Qed.

Lemma Z_of_byte_of_Z (z : Z) : Z_of_byte (byte_of_Z z) = z mod 256.
Proof.
  unfold Z_of_byte, byte_of_Z.
  assert (Hr : 0 <= z mod 256 < 256) by (apply Z.mod_pos_bound; lia).
  destruct (Byte.of_N (Z.to_N (z mod 256))) as [b|] eqn:E.
  - apply Byte.to_of_N in E. rewrite E. lia.
  - apply Byte.of_N_None_iff in E. lia.
Qed.

Lemma byte_of_Z_of_byte (b : byte) : byte_of_Z (Z_of_byte b) = b.
Proof.
  unfold byte_of_Z, Z_of_byte.
  pose proof (Byte.to_N_bounded b).
  rewrite Z.mod_small by lia. rewrite N2Z.id, Byte.of_to_N. reflexivity.
Qed.

Lemma signed_byte_magic (b : byte) :
  signed_byte b = _MAGIC_BYTE <-> b = byte_of_Z _MAGIC_BYTE.
Proof.
  unfold signed_byte, _MAGIC_BYTE. pose proof (Z_of_byte_range b) as Hb. split.
  - intros H. rewrite <- (byte_of_Z_of_byte b).
    destruct (Z_of_byte b <? 128) eqn:E.
    + rewrite H. reflexivity.
    + apply Z.ltb_ge in E. lia.
  - intros ->. reflexivity.
Qed.

Lemma testbit_byte (x i : Z) :
  0 <= i -> Z.testbit (x mod 256) i = (i <? 8) && Z.testbit x i.
Proof.
  intros Hi. change 256 with (2 ^ 8).
  destruct (i <? 8) eqn:E.
  - apply Z.ltb_lt in E. rewrite Z.mod_pow2_bits_low by lia. reflexivity.
  - apply Z.ltb_ge in E. rewrite Z.mod_pow2_bits_high by lia. reflexivity.
Qed.

Lemma big_endian_u32_pack (n : Z) :
  0 <= n < 2 ^ 32 ->
  big_endian_u32 [byte_of_Z (Z.shiftr n 24); byte_of_Z (Z.shiftr n 16);
                  byte_of_Z (Z.shiftr n 8); byte_of_Z n] = n.
Proof.
  intros Hn. unfold big_endian_u32. rewrite !Z_of_byte_of_Z.
  apply Z.bits_inj'. intros i Hi.
  rewrite !Z.lor_spec, !Z.shiftl_spec by lia.
  assert (Hhigh : 32 <= i -> Z.testbit n i = false).
  { intros H. destruct (Z.eq_dec n 0) as [->|Hn0]; [apply Z.bits_0|].
    apply Z.bits_above_log2; [lia|].
    assert (Z.log2 n < 32) by (apply Z.log2_lt_pow2; lia). lia. }
  destruct (Z_lt_dec i 8); [|destruct (Z_lt_dec i 16); [|destruct (Z_lt_dec i 24);
    [|destruct (Z_lt_dec i 32)]]].
  - rewrite (Z.testbit_neg_r _ (i - 24)), (Z.testbit_neg_r _ (i - 16)),
      (Z.testbit_neg_r _ (i - 8)) by lia.
    rewrite testbit_byte by lia.
    replace (i <? 8) with true by (symmetry; apply Z.ltb_lt; lia). reflexivity.
  - rewrite (Z.testbit_neg_r _ (i - 24)), (Z.testbit_neg_r _ (i - 16)) by lia.
    rewrite !testbit_byte by lia. rewrite Z.shiftr_spec by lia.
    replace (i - 8 <? 8) with true by (symmetry; apply Z.ltb_lt; lia).
    replace (i <? 8) with false by (symmetry; apply Z.ltb_ge; lia).
    replace (i - 8 + 8) with i by lia. simpl. rewrite orb_false_r. reflexivity.
  - rewrite (Z.testbit_neg_r _ (i - 24)) by lia.
    rewrite !testbit_byte by lia. rewrite !Z.shiftr_spec by lia.
    replace (i - 16 <? 8) with true by (symmetry; apply Z.ltb_lt; lia).
    replace (i - 8 <? 8) with false by (symmetry; apply Z.ltb_ge; lia).
    replace (i <? 8) with false by (symmetry; apply Z.ltb_ge; lia).
    replace (i - 16 + 16) with i by lia. simpl. rewrite orb_false_r. reflexivity.
  - rewrite !testbit_byte by lia. rewrite !Z.shiftr_spec by lia.
    replace (i - 24 <? 8) with true by (symmetry; apply Z.ltb_lt; lia).
    replace (i - 16 <? 8) with false by (symmetry; apply Z.ltb_ge; lia).
    replace (i - 8 <? 8) with false by (symmetry; apply Z.ltb_ge; lia).
    replace (i <? 8) with false by (symmetry; apply Z.ltb_ge; lia).
    replace (i - 24 + 24) with i by lia. simpl. rewrite !orb_false_r. reflexivity.
  - rewrite !testbit_byte by lia. rewrite !Z.shiftr_spec by lia.
    rewrite Hhigh by lia.
    replace (i - 24 + 24) with i by lia.
    replace (i - 16 + 16) with i by lia.
    replace (i - 8 + 8) with i by lia.
    rewrite Hhigh by lia. rewrite !andb_false_r. reflexivity.
Qed.

(** What [struct.pack('>bI', _MAGIC_BYTE, id)] returns when it returns. *)
Lemma struct_pack_bI_Ok (id : option Z) (header : list byte) :
  struct_pack_bI _MAGIC_BYTE id = Ok header ->
  exists n b1 b2 b3 b4,
    id = Some n /\ 0 <= n < 2 ^ 32 /\
    header = [byte_of_Z _MAGIC_BYTE; b1; b2; b3; b4] /\
    big_endian_u32 [b1; b2; b3; b4] = n.
Proof.
  unfold struct_pack_bI. simpl negb. cbv iota.
  destruct id as [n|]; [|discriminate].
  destruct ((0 <=? n) && (n <? 2 ^ 32)) eqn:E; [|discriminate].
  apply andb_true_iff in E as [H0 H1].
  apply Z.leb_le in H0. apply Z.ltb_lt in H1.
  intros [= <-]. do 5 eexists. repeat split; try eassumption.
  apply big_endian_u32_pack. lia.
Qed.

Lemma struct_pack_bI_in_range (n : Z) :
  0 <= n < 2 ^ 32 ->
  exists b1 b2 b3 b4,
    struct_pack_bI _MAGIC_BYTE (Some n) = Ok [byte_of_Z _MAGIC_BYTE; b1; b2; b3; b4]
    /\ big_endian_u32 [b1; b2; b3; b4] = n.
Proof.
  intros Hn. unfold struct_pack_bI. simpl negb. cbv iota.
  replace ((0 <=? n) && (n <? 2 ^ 32)) with true.
  - do 4 eexists. split; [reflexivity|]. apply big_endian_u32_pack. exact Hn.
  - symmetry. apply andb_true_iff. split; [apply Z.leb_le|apply Z.ltb_lt]; lia.
Qed.

(** ** The buffer *)

Lemma write_fresh (header document : list byte) :
  getvalue (write document (write header (BytesIO_new []))) = header ++ document.
Proof.
  unfold getvalue, write, BytesIO_new. simpl.
  rewrite drop_nil, app_nil_r.
  rewrite take_ge, drop_ge by lia.
  rewrite app_nil_r. reflexivity.
Qed.

Lemma chars_of_bytes_of_chars (s : list ascii) :
  chars_of_bytes (bytes_of_chars s) = s.
Proof.
  unfold chars_of_bytes, bytes_of_chars. induction s as [|c s IH]; simpl.
  - reflexivity.
  - rewrite ascii_of_byte_of_ascii, IH. reflexivity.
Qed.

(** ** The registration check *)

Section Registration.

Import JsonSerializer.

Variables (self : JsonSerializer.t) (log : list RegistryEvent) (subject : string).

(** The three ways the check can go. *)
Lemma ensure_registered_cases :
  (subject ∈ _known_subjects self
   /\ ensure_registered self log subject = (None, self, log))
  \/ ((subject ∉ _known_subjects self)
      /\ exists ev id,
           returned_id ev = Some id /\ answered ev = true
           /\ ensure_registered self log subject
              = (None, set_registered self id subject, log ++ [ev]))
  \/ ((subject ∉ _known_subjects self)
      /\ exists ev e,
           returned_id ev = None /\ answered ev = false
           /\ ensure_registered self log subject = (Some e, self, log ++ [ev])).
Proof.
  unfold ensure_registered.
  destruct (decide (subject ∈ _known_subjects self)) as [Hin|Hout].
  - left. split; [exact Hin|].
    rewrite (bool_decide_eq_true_2 _ Hin). simpl. rewrite !andb_false_r.
    reflexivity.
  - right. rewrite (bool_decide_eq_false_2 _ Hout). simpl. rewrite !andb_true_r.
    destruct (_auto_register self); simpl.
    + destruct (register_schema _ _ _ _) as [id|e] eqn:E.
      * left. split; [exact Hout|].
        exists (register_schema_called subject (_schema self) (Ok id)), id.
        repeat split.
      * right. split; [exact Hout|].
        exists (register_schema_called subject (_schema self) (Raise e)), e.
        repeat split.
    + destruct (lookup_schema _ _ _ _) as [rs|e] eqn:E.
      * left. split; [exact Hout|].
        exists (lookup_schema_called subject (_schema self) (Ok rs)), (schema_id rs).
        repeat split.
      * right. split; [exact Hout|].
        exists (lookup_schema_called subject (_schema self) (Raise e)), e.
        repeat split.
Qed.

End Registration.

(** ** The calls, step by step *)

Section Calls.

Import JsonSerializer.

Variable validate : PyVal -> PyVal -> option exn.

Lemma call_None self log ctx :
  __call__ validate self log ctx VNone = (Ok None, self, log).
Proof. reflexivity. Qed.

(** The instance and the log after a call are those after the
    registration check. *)
Lemma call_state self log ctx obj :
  is_None obj = false ->
  let '(_, self1, log1) :=
    ensure_registered self log (_subject_name_func self ctx (_schema_name self)) in
  let '(_, self', log') := __call__ validate self log ctx obj in
  self' = self1 /\ log' = log1.
Proof.
  intros Hobj. unfold __call__. rewrite Hobj.
  destruct (ensure_registered _ _ _) as [[[e|] self1] log1]; [easy|].
  destruct (match _to_dict self1 with Some f => f ctx obj | None => Ok obj end)
    as [value|e]; [|easy].
  destruct (validate value _) as [[]|]; try easy.
  destruct (struct_pack_bI _ _); easy.
Qed.

(** A call that returns a frame went through every step. *)
Lemma call_returns_frame self log ctx obj frame self' log' :
  __call__ validate self log ctx obj = (Ok (Some frame), self', log') ->
  exists value header,
    is_None obj = false
    /\ ensure_registered self log (_subject_name_func self ctx (_schema_name self))
       = (None, self', log')
    /\ match _to_dict self' with
       | Some to_dict => to_dict ctx obj
       | None => Ok obj
       end = Ok value
    /\ validate value (_parsed_schema self') = None
    /\ struct_pack_bI _MAGIC_BYTE (_schema_id self') = Ok header
    /\ frame = header ++ json_dumps value.
Proof.
  unfold __call__. destruct (is_None obj); [discriminate|].
  destruct (ensure_registered _ _ _) as [[[e|] self1] log1]; [discriminate|].
  destruct (match _to_dict self1 with Some f => f ctx obj | None => Ok obj end)
    as [value|e] eqn:Hv; [|discriminate].
  destruct (validate value _) as [[]|] eqn:Hval; try discriminate.
  destruct (struct_pack_bI _ _) as [header|] eqn:Hp; [|discriminate].
  cbv zeta. unfold json_dump. rewrite write_fresh.
  intros [= <- <- <-]. exists value, header. repeat split; assumption || reflexivity.
Qed.

(** A call on a value that passes every step returns the frame. *)
Lemma call_frame self log ctx obj value header self' log' :
  is_None obj = false ->
  ensure_registered self log (_subject_name_func self ctx (_schema_name self))
  = (None, self', log') ->
  match _to_dict self' with
  | Some to_dict => to_dict ctx obj
  | None => Ok obj
  end = Ok value ->
  validate value (_parsed_schema self') = None ->
  struct_pack_bI _MAGIC_BYTE (_schema_id self') = Ok header ->
  __call__ validate self log ctx obj
  = (Ok (Some (header ++ json_dumps value)), self', log').
Proof.
  intros Hobj Hreg Hv Hval Hp. unfold __call__.
  rewrite Hobj, Hreg, Hv, Hval, Hp.
  cbv zeta. unfold json_dump. rewrite write_fresh. reflexivity.
Qed.

End Calls.

(** What the deserializer does with a buffer of more than five bytes. *)
Lemma deserializer_call_long (self : JsonDeserializer.t)
    (ctx : SerializationContext) (b0 b1 b2 b3 b4 b5 : byte) (document : list byte) :
  JsonDeserializer.__call__ self ctx (Some (b0 :: b1 :: b2 :: b3 :: b4 :: b5 :: document))
  = if negb (signed_byte b0 =? _MAGIC_BYTE)
    then Raise (SerializationError "message does not start with magic byte")
    else match json_loads (b5 :: document) with
         | Raise e => Raise e
         | Ok obj_dict =>
             match JsonDeserializer._from_dict self with
             | Some from_dict => from_dict ctx obj_dict
             | None => Ok obj_dict
             end
         end.
Proof. reflexivity. Qed.

(** ** The encoder never writes an empty document *)

Lemma chars_of_uint_nil (u : Decimal.uint) : chars_of_uint u = [] -> u = Decimal.Nil.
Proof. destruct u; simpl; congruence. Qed.

Lemma str_int_nonempty (n : Z) : str_int n <> [].
Proof.
  unfold str_int. destruct n as [|p|p]; simpl; try discriminate.
  intros H. apply chars_of_uint_nil in H.
  exact (DecimalPos.Unsigned.to_uint_nonnil p H).
Qed.

Lemma iterencode_nonempty (o : PyVal) : _iterencode o <> [].
Proof.
  destruct o as [| [] | n | s | [|v l] | [|v l] | [|kv d]]; simpl; try discriminate.
  apply str_int_nonempty.
Qed.

Lemma json_dumps_nonempty (o : PyVal) : (0 < length (json_dumps o))%nat.
Proof.
  unfold json_dumps, bytes_of_chars. rewrite length_map.
  pose proof (iterencode_nonempty o). destruct (_iterencode o); simpl; [easy|lia].
Qed.

(** ** json.loads reads back what json.dump writes *)

(** One escaped character is read back as the character. *)
Lemma scanstring_escape (c : ascii) (tail : list ascii) :
  scanstring (escape_ascii c ++ tail)
  = match scanstring tail with
    | Some (t, rest) => Some (String c t, rest)
    | None => None
    end.
Proof. each_char c; reflexivity. Qed.

Lemma scanstring_encoded (s : string) (rest : list ascii) :
  scanstring (flat_map escape_ascii (list_ascii_of_string s) ++ quote_char :: rest)
  = Some (s, rest).
Proof.
  induction s as [|c s IH]; simpl.
  - reflexivity.
  - rewrite <- app_assoc, scanstring_escape, IH. reflexivity.
Qed.

Lemma encode_basestring_ascii_app (s : string) (rest : list ascii) :
  encode_basestring_ascii s ++ rest
  = quote_char :: flat_map escape_ascii (list_ascii_of_string s) ++ quote_char :: rest.
Proof.
  unfold encode_basestring_ascii. simpl. rewrite <- app_assoc. reflexivity.
Qed.

Lemma delimited_not_digit (rest : list ascii) :
  delimited rest -> scan_digits rest = (Decimal.Nil, rest).
Proof.
  destruct rest as [|c r]; [reflexivity|].
  intros [-> | [-> | ->]]; reflexivity.
Qed.

Lemma delimited_not_float (rest : list ascii) :
  delimited rest -> has_frac rest || has_exp rest = false.
Proof.
  destruct rest as [|c r]; [reflexivity|].
  intros [-> | [-> | ->]]; destruct r; reflexivity.
Qed.

Lemma delimited_skip_ws (rest : list ascii) :
  delimited rest -> skip_ws rest = rest.
Proof.
  destruct rest as [|c r]; [reflexivity|].
  intros [-> | [-> | ->]]; reflexivity.
Qed.

Lemma scan_digits_encoded (u : Decimal.uint) (rest : list ascii) :
  delimited rest -> scan_digits (chars_of_uint u ++ rest) = (u, rest).
Proof.
  intros Hrest. induction u; simpl.
  - apply delimited_not_digit, Hrest.
  - change (uint_cons (digit_char 0)) with (Some Decimal.D0). rewrite IHu. reflexivity.
  - change (uint_cons (digit_char 1)) with (Some Decimal.D1). rewrite IHu. reflexivity.
  - change (uint_cons (digit_char 2)) with (Some Decimal.D2). rewrite IHu. reflexivity.
  - change (uint_cons (digit_char 3)) with (Some Decimal.D3). rewrite IHu. reflexivity.
  - change (uint_cons (digit_char 4)) with (Some Decimal.D4). rewrite IHu. reflexivity.
  - change (uint_cons (digit_char 5)) with (Some Decimal.D5). rewrite IHu. reflexivity.
  - change (uint_cons (digit_char 6)) with (Some Decimal.D6). rewrite IHu. reflexivity.
  - change (uint_cons (digit_char 7)) with (Some Decimal.D7). rewrite IHu. reflexivity.
  - change (uint_cons (digit_char 8)) with (Some Decimal.D8). rewrite IHu. reflexivity.
  - change (uint_cons (digit_char 9)) with (Some Decimal.D9). rewrite IHu. reflexivity.
Qed.

Lemma nzhead_headed (u : Decimal.uint) :
  Decimal.nzhead u <> Decimal.Nil -> headed (Decimal.nzhead u).
Proof. induction u; simpl; auto. Qed.

Lemma to_uint_headed (p : positive) : headed (Pos.to_uint p).
Proof.
  pose proof (DecimalPos.Unsigned.to_of (Pos.to_uint p)) as H.
  rewrite DecimalPos.Unsigned.of_to in H. simpl in H.
  pose proof (DecimalPos.Unsigned.to_uint_nonzero p) as Hnz.
  unfold Decimal.unorm in H.
  pose proof (nzhead_headed (Pos.to_uint p)) as Hh.
  destruct (Decimal.nzhead (Pos.to_uint p)) eqn:E;
    [contradiction | rewrite H; apply Hh; discriminate ..].
Qed.

Lemma match_digits_encoded (u : Decimal.uint) (rest : list ascii) :
  headed u -> delimited rest ->
  match_digits (chars_of_uint u ++ rest) = Some (u, rest).
Proof.
  intros Hu Hrest. pose proof (scan_digits_encoded u rest Hrest) as H.
  destruct u; simpl in Hu; try contradiction;
    unfold match_digits; simpl chars_of_uint; simpl app;
    (change (Ascii.eqb (digit_char _) "0") with false);
    (change (is_digit (digit_char _)) with true); cbv iota;
    simpl chars_of_uint in H; simpl app in H; rewrite H; reflexivity.
Qed.

Lemma match_number_encoded (n : Z) (rest : list ascii) :
  delimited rest -> match_number (str_int n ++ rest) = Some (VInt n, rest).
Proof.
  intros Hrest. pose proof (delimited_not_float rest Hrest) as Hf.
  unfold str_int. destruct n as [|p|p]; simpl Z.to_int; cbv iota.
  - unfold match_number. simpl. rewrite Hf. reflexivity.
  - pose proof (to_uint_headed p) as Hh.
    pose proof (match_digits_encoded _ rest Hh Hrest) as Hm.
    unfold match_number.
    assert (Hs : match chars_of_uint (Pos.to_uint p) ++ rest with
                 | c :: r => if Ascii.eqb c "-" then (true, r)
                             else (false, chars_of_uint (Pos.to_uint p) ++ rest)
                 | [] => (false, chars_of_uint (Pos.to_uint p) ++ rest)
                 end = (false, chars_of_uint (Pos.to_uint p) ++ rest)).
    { destruct (Pos.to_uint p); simpl in Hh; try contradiction; reflexivity. }
    rewrite Hs. simpl fst. simpl snd. rewrite Hm, Hf.
    unfold Z.of_uint. rewrite DecimalPos.Unsigned.of_to. reflexivity.
  - pose proof (to_uint_headed p) as Hh.
    pose proof (match_digits_encoded _ rest Hh Hrest) as Hm.
    unfold match_number. simpl app.
    change (Ascii.eqb "-" "-") with true. cbv iota. simpl fst. simpl snd.
    rewrite Hm, Hf.
    unfold Z.of_uint. rewrite DecimalPos.Unsigned.of_to. reflexivity.
Qed.

(** Where [scan_once] goes for a number. *)
Lemma scan_once_number (fuel : nat) (c : ascii) (s : list ascii) :
  is_digit c || Ascii.eqb c "-" = true ->
  scan_once (S fuel) (c :: s) = match_number (c :: s).
Proof. each_char c; intros H; try discriminate H; reflexivity. Qed.

Lemma str_int_head (n : Z) :
  exists c s, str_int n = c :: s /\ is_digit c || Ascii.eqb c "-" = true.
Proof.
  unfold str_int. destruct n as [|p|p]; simpl Z.to_int; cbv iota.
  - eexists _, _. split; reflexivity.
  - pose proof (to_uint_headed p) as Hh.
    destruct (Pos.to_uint p); simpl in Hh; try contradiction;
      eexists _, _; split; reflexivity.
  - eexists _, _. split; reflexivity.
Qed.

Lemma scan_once_int (fuel : nat) (n : Z) (rest : list ascii) :
  delimited rest ->
  scan_once (S fuel) (str_int n ++ rest) = Some (VInt n, rest).
Proof.
  intros Hrest. destruct (str_int_head n) as (c & s & E & Hc).
  rewrite <- (match_number_encoded n rest Hrest).
  rewrite E. simpl app. apply scan_once_number, Hc.
Qed.

Lemma starts_value_skip_ws (c : ascii) (s : list ascii) :
  starts_value c = true -> skip_ws (c :: s) = c :: s.
Proof. each_char c; intros H; try discriminate H; reflexivity. Qed.

Lemma starts_value_not_closing (c : ascii) :
  starts_value c = true -> Ascii.eqb c "]" = false.
Proof. each_char c; intros H; try discriminate H; reflexivity. Qed.

Lemma iterencode_starts (v : PyVal) :
  exists c s, _iterencode v = c :: s /\ starts_value c = true.
Proof.
  destruct v as [| [] | n | s | [|v l] | [|v l] | [|kv d]];
    try (eexists _, _; split; reflexivity).
  destruct (str_int_head n) as (c & s & E & Hc). exists c, s. split; [exact E|].
  unfold starts_value. apply orb_true_iff in Hc as [Hc|Hc]; rewrite Hc;
    rewrite ?orb_true_r; reflexivity.
Qed.

Lemma encode_items_starts (l : list PyVal) :
  l <> [] ->
  exists c s, encode_items _iterencode l = c :: s /\ starts_value c = true.
Proof.
  destruct l as [|v l]; [congruence|]. intros _. simpl.
  destruct (iterencode_starts v) as (c & s & E & Hc). rewrite E.
  exists c, (s ++ encode_rest _iterencode l). split; [reflexivity|exact Hc].
Qed.

Lemma array_loop_S (fuel : nat) (s : list ascii) :
  array_loop (S fuel) s
  = match scan_once fuel s with
    | None => None
    | Some (value, r) =>
        match skip_ws r with
        | [] => None
        | c :: r' =>
            if Ascii.eqb c "]" then Some ([value], r')
            else if Ascii.eqb c "," then
              match array_loop fuel (skip_ws r') with
              | Some (values, rest) => Some (value :: values, rest)
              | None => None
              end
            else None
        end
    end.
Proof. reflexivity. Qed.

Lemma object_loop_S (fuel : nat) (s : list ascii) :
  object_loop (S fuel) s
  = match scanstring s with
    | None => None
    | Some (key, r) =>
        match skip_ws r with
        | [] => None
        | c :: r1 =>
            if Ascii.eqb c ":" then
              match scan_once fuel (skip_ws r1) with
              | None => None
              | Some (value, r2) =>
                  match skip_ws r2 with
                  | [] => None
                  | c' :: r3 =>
                      if Ascii.eqb c' "}" then Some ([(key, value)], r3)
                      else if Ascii.eqb c' "," then
                        match skip_ws r3 with
                        | [] => None
                        | q :: r4 =>
                            if Ascii.eqb q quote_char then
                              match object_loop fuel r4 with
                              | Some (pairs, rest) =>
                                  Some ((key, value) :: pairs, rest)
                              | None => None
                              end
                            else None
                        end
                      else None
                  end
              end
            else None
        end
    end.
Proof. reflexivity. Qed.

Lemma array_loop_encoded (l : list PyVal) :
  l <> [] -> Forall reads_back l -> forallb unique_keys l = true ->
  forall (fuel : nat) (rest : list ascii),
    (list_sum (map (fun x => S (cost x)) l) <= fuel)%nat ->
    array_loop fuel (encode_items _iterencode l ++ "]"%char :: rest)
    = Some (map as_json l, rest).
Proof.
  induction l as [|v l IH]; [congruence|].
  intros _ Hall Hwf fuel rest Hfuel.
  apply Forall_cons in Hall as [Hv Hall].
  simpl in Hwf. apply andb_true_iff in Hwf as [Hwfv Hwf].
  simpl in Hfuel. destruct fuel as [|fuel]; [lia|].
  rewrite array_loop_S.
  destruct l as [|v' l].
  - simpl encode_items. rewrite app_nil_r.
    rewrite (Hv Hwfv fuel ("]"%char :: rest)); [reflexivity|simpl in *; lia|].
    simpl. auto.
  - assert (Hne : v' :: l <> []) by discriminate.
    specialize (IH Hne Hall Hwf fuel rest ltac:(simpl in *; lia)).
    destruct (encode_items_starts (v' :: l) Hne) as (c & s & E & Hc).
    change (encode_items _iterencode (v :: v' :: l))
      with (_iterencode v
            ++ ","%char :: " "%char :: encode_items _iterencode (v' :: l)).
    remember (encode_items _iterencode (v' :: l)) as items eqn:Hitems.
    rewrite <- app_assoc.
    change ((","%char :: " "%char :: items) ++ "]"%char :: rest)
      with (","%char :: " "%char :: (items ++ "]"%char :: rest)).
    rewrite (Hv Hwfv fuel); [|simpl in *; lia|simpl; auto].
    change (skip_ws (","%char :: ?r)) with (","%char :: r). cbv iota.
    change (Ascii.eqb "," "]") with false. change (Ascii.eqb "," ",") with true.
    cbv iota.
    change (skip_ws (" "%char :: ?r)) with (skip_ws r).
    replace (skip_ws (items ++ "]"%char :: rest)) with (items ++ "]"%char :: rest).
    + rewrite IH. reflexivity.
    + rewrite E. simpl app. symmetry. apply starts_value_skip_ws, Hc.
Qed.

Lemma encode_pair_body (kv : string * PyVal) :
  encode_pair kv = quote_char :: pair_body kv.
Proof.
  unfold encode_pair, pair_body, encode_basestring_ascii. simpl.
  rewrite <- app_assoc. reflexivity.
Qed.

Lemma skip_ws_value (v : PyVal) (rest : list ascii) :
  skip_ws (_iterencode v ++ rest) = _iterencode v ++ rest.
Proof.
  destruct (iterencode_starts v) as (c & s & E & Hc). rewrite E. simpl app.
  apply starts_value_skip_ws, Hc.
Qed.

(** One pair, read from behind the opening quote of its key. *)
Lemma object_loop_pair (fuel : nat) (k : string) (v : PyVal) (tail : list ascii) :
  reads_back v -> unique_keys v = true -> (cost v <= fuel)%nat -> delimited tail ->
  object_loop (S fuel) (pair_body (k, v) ++ tail)
  = match skip_ws tail with
    | [] => None
    | c' :: r3 =>
        if Ascii.eqb c' "}" then Some ([(k, as_json v)], r3)
        else if Ascii.eqb c' "," then
          match skip_ws r3 with
          | [] => None
          | q :: r4 =>
              if Ascii.eqb q quote_char then
                match object_loop fuel r4 with
                | Some (pairs, rest) => Some ((k, as_json v) :: pairs, rest)
                | None => None
                end
              else None
          end
        else None
    end.
Proof.
  intros Hv Hwf Hfuel Htail. rewrite object_loop_S.
  unfold pair_body. simpl fst. simpl snd.
  rewrite <- app_assoc.
  change ((quote_char :: key_separator ++ _iterencode v) ++ tail)
    with (quote_char :: ":"%char :: " "%char :: (_iterencode v ++ tail)).
  rewrite scanstring_encoded.
  change (skip_ws (":"%char :: ?r)) with (":"%char :: r). cbv iota.
  change (Ascii.eqb ":" ":") with true. cbv iota.
  change (skip_ws (" "%char :: ?r)) with (skip_ws r).
  rewrite skip_ws_value, (Hv Hwf fuel tail Hfuel Htail). reflexivity.
Qed.

Lemma object_loop_encoded (d : list (string * PyVal)) :
  forall (kv : string * PyVal),
    Forall (fun kv => reads_back (snd kv)) (kv :: d) ->
    forallb (fun kv => unique_keys (snd kv)) (kv :: d) = true ->
    forall (fuel : nat) (rest : list ascii),
      (list_sum (map (fun kv => S (cost (snd kv))) (kv :: d)) <= fuel)%nat ->
      object_loop fuel (pair_body kv ++ encode_rest encode_pair d ++ "}"%char :: rest)
      = Some (map (fun kv => (fst kv, as_json (snd kv))) (kv :: d), rest).
Proof.
  induction d as [|kv' d IH]; intros [k v] Hall Hwf fuel rest Hfuel;
    apply Forall_cons in Hall as [Hv Hall];
    simpl in Hwf; apply andb_true_iff in Hwf as [Hwfv Hwf];
    simpl in Hfuel; simpl in Hv; (destruct fuel as [|fuel]; [lia|]).
  - change (encode_rest encode_pair [] ++ "}"%char :: rest) with ("}"%char :: rest).
    rewrite object_loop_pair; [reflexivity|exact Hv|exact Hwfv|lia|simpl; auto].
  - specialize (IH kv' Hall Hwf fuel rest ltac:(simpl in *; lia)).
    change (encode_rest encode_pair (kv' :: d))
      with (","%char :: " "%char :: encode_pair kv' ++ encode_rest encode_pair d).
    rewrite encode_pair_body.
    remember (pair_body kv') as body eqn:Hbody.
    remember (encode_rest encode_pair d) as others eqn:Hothers.
    change ((","%char :: " "%char :: (quote_char :: body) ++ others) ++ "}"%char :: rest)
      with (","%char :: " "%char :: quote_char :: ((body ++ others) ++ "}"%char :: rest)).
    rewrite object_loop_pair; [|exact Hv|exact Hwfv|lia|simpl; auto].
    change (skip_ws (","%char :: ?r)) with (","%char :: r). cbv iota.
    change (Ascii.eqb "," "}") with false. change (Ascii.eqb "," ",") with true.
    cbv iota.
    change (skip_ws (" "%char :: quote_char :: ?r)) with (quote_char :: r).
    cbv iota. change (Ascii.eqb quote_char quote_char) with true. cbv iota.
    rewrite <- app_assoc, IH. reflexivity.
Qed.

(** ** dict(pairs) of pairs with distinct keys *)

Lemma dict_set_new (k : string) (v : PyVal) (d : list (string * PyVal)) :
  existsb (String.eqb k) (map fst d) = false -> dict_set k v d = d ++ [(k, v)].
Proof.
  induction d as [|[k' v'] d IH]; simpl; [reflexivity|].
  intros H. apply orb_false_iff in H as [Hk H]. rewrite Hk, IH by exact H.
  reflexivity.
Qed.

Lemma dict_from (pairs acc : list (string * PyVal)) :
  distinct (map fst (acc ++ pairs)) = true ->
  fold_left (fun d kv => dict_set (fst kv) (snd kv) d) pairs acc = acc ++ pairs.
Proof.
  revert acc. induction pairs as [|[k v] pairs IH]; intros acc H; simpl.
  - rewrite app_nil_r. reflexivity.
  - assert (Hnew : existsb (String.eqb k) (map fst acc) = false).
    { clear IH. induction acc as [|[k' v'] acc IHacc]; simpl; [reflexivity|].
      simpl in H. apply andb_true_iff in H as [Hk' H].
      rewrite (IHacc H), orb_false_r.
      apply negb_true_iff in Hk'. rewrite map_app, existsb_app in Hk'.
      apply orb_false_iff in Hk' as [_ Hk']. simpl in Hk'.
      apply orb_false_iff in Hk' as [Hk' _].
      rewrite String.eqb_sym. exact Hk'. }
    rewrite dict_set_new by exact Hnew.
    rewrite IH; rewrite <- app_assoc; [reflexivity|exact H].
Qed.

Lemma dict_distinct (pairs : list (string * PyVal)) :
  distinct (map fst pairs) = true -> dict pairs = pairs.
Proof. intros H. unfold dict. rewrite dict_from; [reflexivity|exact H]. Qed.

(** ** Every value is read back, its tuples as lists *)

Lemma scan_once_array (fuel : nat) (r : list ascii) :
  scan_once (S fuel) ("["%char :: r)
  = match skip_ws r with
    | [] => None
    | c :: r' =>
        if Ascii.eqb c "]" then Some (VList [], r')
        else
          match array_loop fuel (c :: r') with
          | Some (values, rest) => Some (VList values, rest)
          | None => None
          end
    end.
Proof. reflexivity. Qed.

Lemma scan_once_object (fuel : nat) (r : list ascii) :
  scan_once (S fuel) ("{"%char :: quote_char :: r)
  = match object_loop fuel r with
    | Some (pairs, rest) => Some (VDict (dict pairs), rest)
    | None => None
    end.
Proof. reflexivity. Qed.

Lemma scan_once_string (fuel : nat) (r : list ascii) :
  scan_once (S fuel) (quote_char :: r)
  = match scanstring r with
    | Some (str, rest) => Some (VStr str, rest)
    | None => None
    end.
Proof. reflexivity. Qed.

(** The items of a list or of a tuple, between the brackets. *)
Lemma scan_once_items (l : list PyVal) (fuel : nat) (rest : list ascii) :
  l <> [] -> Forall reads_back l -> forallb unique_keys l = true ->
  (list_sum (map (fun x => S (cost x)) l) <= fuel)%nat ->
  scan_once (S fuel)
    (("["%char :: encode_items _iterencode l ++ ["]"%char]) ++ rest)
  = Some (VList (map as_json l), rest).
Proof.
  intros Hne IH Hwf Hfuel.
  remember (encode_items _iterencode l) as items eqn:Hitems.
  change (("["%char :: items ++ ["]"%char]) ++ rest)
    with ("["%char :: (items ++ ["]"%char]) ++ rest).
  rewrite <- app_assoc. change (["]"%char] ++ rest) with ("]"%char :: rest).
  rewrite scan_once_array.
  destruct (encode_items_starts l Hne) as (c & s & E & Hc).
  rewrite <- Hitems in E.
  assert (Hskip : skip_ws (items ++ "]"%char :: rest) = c :: s ++ "]"%char :: rest).
  { rewrite E. simpl app. apply starts_value_skip_ws, Hc. }
  rewrite Hskip, (starts_value_not_closing c Hc).
  change (c :: s ++ "]"%char :: rest) with ((c :: s) ++ "]"%char :: rest).
  rewrite <- E, Hitems.
  rewrite (array_loop_encoded l Hne IH Hwf fuel rest Hfuel). reflexivity.
Qed.

Theorem scan_once_encoded (v : PyVal) : reads_back v.
Proof.
  induction v as [| b | n | s | l IH | l IH | d IH] using PyVal_ind;
    intros Hwf fuel rest Hfuel Hrest;
    (destruct fuel as [|fuel]; [simpl in Hfuel; lia|]).
  - reflexivity.
  - destruct b; reflexivity.
  - apply scan_once_int, Hrest.
  - change (_iterencode (VStr s)) with (encode_basestring_ascii s).
    rewrite encode_basestring_ascii_app, scan_once_string, scanstring_encoded.
    reflexivity.
  - destruct l as [|v l]; [reflexivity|].
    change (_iterencode (VList (v :: l)))
      with ("["%char :: encode_items _iterencode (v :: l) ++ ["]"%char]).
    apply scan_once_items; [discriminate|exact IH|exact Hwf|].
    simpl in Hfuel. simpl. lia.
  - destruct l as [|v l]; [reflexivity|].
    change (_iterencode (VTuple (v :: l)))
      with ("["%char :: encode_items _iterencode (v :: l) ++ ["]"%char]).
    apply scan_once_items; [discriminate|exact IH|exact Hwf|].
    simpl in Hfuel. simpl. lia.
  - destruct d as [|kv d]; [reflexivity|].
    simpl in Hwf. apply andb_true_iff in Hwf as [Hkeys Hwf].
    change (_iterencode (VDict (kv :: d)))
      with ("{"%char :: (encode_pair kv ++ encode_rest encode_pair d) ++ ["}"%char]).
    rewrite encode_pair_body.
    remember (pair_body kv) as body eqn:Hbody.
    remember (encode_rest encode_pair d) as others eqn:Hothers.
    change (("{"%char :: ((quote_char :: body) ++ others) ++ ["}"%char]) ++ rest)
      with ("{"%char :: quote_char :: ((body ++ others) ++ ["}"%char]) ++ rest).
    rewrite scan_once_object.
    rewrite <- !app_assoc. change (["}"%char] ++ rest) with ("}"%char :: rest).
    rewrite Hbody, Hothers.
    rewrite (object_loop_encoded d kv IH); [|exact Hwf|simpl in Hfuel; simpl; lia].
    rewrite dict_distinct; [reflexivity|].
    rewrite map_map. simpl. exact Hkeys.
Qed.

(** The fuel [json_loads] starts with is enough. *)
Lemma cost_le_length (v : PyVal) : (cost v <= 2 * length (_iterencode v))%nat.
Proof.
  induction v as [| b | n | s | l IH | l IH | d IH] using PyVal_ind;
    try (pose proof (iterencode_nonempty v); simpl; lia).
  - simpl. lia.
  - destruct b; simpl; lia.
  - pose proof (str_int_nonempty n). simpl. destruct (str_int n); simpl; [easy|lia].
  - unfold _iterencode, encode_basestring_ascii. simpl. lia.
  - assert (Hrest : forall l, Forall (fun v => (cost v <= 2 * length (_iterencode v))%nat) l ->
              (list_sum (map (fun x => S (cost x)) l)
               <= 2 * length (encode_rest _iterencode l))%nat).
    { clear. induction 1 as [|v l Hv Hl IHl]; [simpl; lia|].
      change (encode_rest _iterencode (v :: l))
        with (item_separator ++ _iterencode v ++ encode_rest _iterencode l).
      rewrite !length_app. change (length item_separator) with 2%nat.
      simpl list_sum. lia. }
    destruct l as [|v l]; [simpl; lia|].
    apply Forall_cons in IH as [Hv Hl]. specialize (Hrest l Hl).
    change (_iterencode (VList (v :: l)))
      with ("["%char :: (_iterencode v ++ encode_rest _iterencode l) ++ ["]"%char]).
    remember (encode_rest _iterencode l) as others eqn:Hothers.
    simpl cost. simpl length. rewrite !length_app. simpl length. lia.
  - assert (Hrest : forall l, Forall (fun v => (cost v <= 2 * length (_iterencode v))%nat) l ->
              (list_sum (map (fun x => S (cost x)) l)
               <= 2 * length (encode_rest _iterencode l))%nat).
    { clear. induction 1 as [|v l Hv Hl IHl]; [simpl; lia|].
      change (encode_rest _iterencode (v :: l))
        with (item_separator ++ _iterencode v ++ encode_rest _iterencode l).
      rewrite !length_app. change (length item_separator) with 2%nat.
      simpl list_sum. lia. }
    destruct l as [|v l]; [simpl; lia|].
    apply Forall_cons in IH as [Hv Hl]. specialize (Hrest l Hl).
    change (_iterencode (VTuple (v :: l)))
      with ("["%char :: (_iterencode v ++ encode_rest _iterencode l) ++ ["]"%char]).
    remember (encode_rest _iterencode l) as others eqn:Hothers.
    simpl cost. simpl length. rewrite !length_app. simpl length. lia.
  - assert (Hrest : forall d,
              Forall (fun kv => (cost (snd kv) <= 2 * length (_iterencode (snd kv)))%nat) d ->
              (list_sum (map (fun kv => S (cost (snd kv))) d)
               <= 2 * length (encode_rest encode_pair d))%nat).
    { clear. induction 1 as [|kv d Hv Hd IHd]; [simpl; lia|].
      change (encode_rest encode_pair (kv :: d))
        with (item_separator ++ encode_pair kv ++ encode_rest encode_pair d).
      remember (encode_rest encode_pair d) as others eqn:Hothers.
      unfold encode_pair. rewrite !length_app.
      change (length item_separator) with 2%nat. simpl list_sum. lia. }
    destruct d as [|kv d]; [simpl; lia|].
    apply Forall_cons in IH as [Hv Hd]. specialize (Hrest d Hd).
    change (_iterencode (VDict (kv :: d)))
      with ("{"%char :: (encode_pair kv ++ encode_rest encode_pair d) ++ ["}"%char]).
    remember (encode_rest encode_pair d) as others eqn:Hothers.
    unfold encode_pair. simpl cost. simpl length. rewrite !length_app.
    simpl length. lia.
Qed.

(** [json.loads(json.dumps(v))] is [v] with a list for every tuple. *)
Theorem json_loads_dumps_as_json (v : PyVal) :
  unique_keys v = true -> json_loads (json_dumps v) = Ok (as_json v).
Proof.
  intros Hwf. unfold json_loads, json_dumps.
  rewrite chars_of_bytes_of_chars.
  pose proof (skip_ws_value v []) as Hs. rewrite app_nil_r in Hs. rewrite Hs.
  pose proof (scan_once_encoded v Hwf (2 * length (_iterencode v))%nat []
                (cost_le_length v) I) as H.
  rewrite app_nil_r in H. rewrite H. reflexivity.
Qed.

(** A value without a tuple is what [json] makes of it. *)
Lemma well_formed_as_json (v : PyVal) :
  well_formed v = true -> unique_keys v = true /\ as_json v = v.
Proof.
  induction v as [| b | n | s | l IH | l IH | d IH] using PyVal_ind;
    intros Hwf; try (split; reflexivity); try discriminate Hwf.
  - simpl in Hwf. simpl.
    assert (H : forallb unique_keys l = true /\ map as_json l = l).
    { induction IH as [|v l Hv Hl IHl]; [split; reflexivity|].
      simpl in Hwf. apply andb_true_iff in Hwf as [Hwfv Hwf].
      destruct (Hv Hwfv) as [Hu Hj]. destruct (IHl Hwf) as [Hus Hjs].
      simpl. rewrite Hu, Hus, Hj, Hjs. split; reflexivity. }
    destruct H as [Hu Hj]. rewrite Hj. split; [exact Hu|reflexivity].
  - simpl in Hwf. apply andb_true_iff in Hwf as [Hkeys Hwf]. simpl.
    assert (H : forallb (fun kv => unique_keys (snd kv)) d = true
                /\ map (fun kv => (fst kv, as_json (snd kv))) d = d).
    { clear Hkeys. induction IH as [|[k v] d Hv Hd IHd]; [split; reflexivity|].
      simpl in Hwf. apply andb_true_iff in Hwf as [Hwfv Hwf].
      destruct (Hv Hwfv) as [Hu Hj]. destruct (IHd Hwf) as [Hus Hjs].
      simpl in *. rewrite Hu, Hus, Hj, Hjs. split; reflexivity. }
    destruct H as [Hu Hj]. rewrite Hkeys, Hu, Hj. split; reflexivity.
Qed.

(** Only a value without a tuple is what [json] makes of it. *)
Lemma as_json_fixed (v : PyVal) :
  unique_keys v = true -> as_json v = v -> well_formed v = true.
Proof.
  induction v as [| b | n | s | l IH | l IH | d IH] using PyVal_ind;
    intros Hkeys Hfix; try reflexivity; try discriminate Hfix.
  - simpl in *. injection Hfix as Hfix.
    induction IH as [|v l Hv Hl IHl]; [reflexivity|].
    simpl in *. apply andb_true_iff in Hkeys as [Hk Hks].
    injection Hfix as Hv' Hl'.
    rewrite (Hv Hk Hv'), (IHl Hks Hl'). reflexivity.
  - simpl in *. apply andb_true_iff in Hkeys as [Hdistinct Hkeys].
    injection Hfix as Hfix. rewrite Hdistinct. simpl.
    clear Hdistinct. induction IH as [|[k v] d Hv Hd IHd]; [reflexivity|].
    simpl in *. apply andb_true_iff in Hkeys as [Hk Hks].
    injection Hfix as Hv' Hd'.
    rewrite (Hv Hk Hv'), (IHd Hks Hd'). reflexivity.
Qed.

(** [json.loads(json.dumps(v)) == v] *)
Theorem json_loads_dumps (v : PyVal) :
  well_formed v = true -> json_loads (json_dumps v) = Ok v.
Proof.
  intros Hwf. destruct (well_formed_as_json v Hwf) as [Hu Hj].
  rewrite json_loads_dumps_as_json by exact Hu. rewrite Hj. reflexivity.
Qed.

(** ** What a call changes *)

Section Effects.

Import JsonSerializer.

Variable validate : PyVal -> PyVal -> option exn.

(** The registration check leaves the configuration alone. *)
Lemma ensure_registered_fields self log subject e self' log' :
  ensure_registered self log subject = (e, self', log') ->
  _to_dict self' = _to_dict self
  /\ _parsed_schema self' = _parsed_schema self
  /\ _subject_name_func self' = _subject_name_func self
  /\ _schema_name self' = _schema_name self.
Proof.
  intros H.
  destruct (ensure_registered_cases self log subject)
    as [[_ E] | [[_ (ev & id & _ & _ & E)] | [_ (ev & e' & _ & _ & E)]]];
    rewrite E in H; injection H as <- <- <-; auto.
Qed.

(** The instance and the log after one call. *)
Lemma call_cases self log ctx obj :
  let subject := _subject_name_func self ctx (_schema_name self) in
  let after := __call__ validate self log ctx obj in
  (snd (fst after) = self /\ snd after = log
   /\ (is_None obj = true \/ subject ∈ _known_subjects self))
  \/ ((subject ∉ _known_subjects self)
      /\ exists ev id,
           returned_id ev = Some id /\ answered ev = true
           /\ snd (fst after) = set_registered self id subject
           /\ snd after = log ++ [ev])
  \/ ((subject ∉ _known_subjects self)
      /\ exists ev,
           returned_id ev = None /\ answered ev = false
           /\ snd (fst after) = self /\ snd after = log ++ [ev]).
Proof.
  intros subject after. subst after.
  destruct (is_None obj) eqn:Hobj.
  { left. unfold __call__. rewrite Hobj. auto. }
  pose proof (call_state validate self log ctx obj Hobj) as H.
  fold subject in H.
  destruct (__call__ validate self log ctx obj) as [[r self'] log'].
  simpl fst. simpl snd.
  destruct (ensure_registered_cases self log subject)
    as [[Hin E] | [[Hout (ev & id & Hid & Hans & E)] | [Hout (ev & e' & Hid & Hans & E)]]];
    rewrite E in H; destruct H as [-> ->].
  - left. auto.
  - right. left. split; [exact Hout|]. exists ev, id. auto.
  - right. right. split; [exact Hout|]. exists ev. auto.
Qed.

Lemma encode_all_cons self log ctx obj messages :
  encode_all validate self log ((ctx, obj) :: messages)
  = let after := __call__ validate self log ctx obj in
    let rest := encode_all validate (snd (fst after)) (snd after) messages in
    (fst (fst after) :: fst (fst rest), snd (fst rest), snd rest).
Proof.
  simpl. destruct (__call__ validate self log ctx obj) as [[r self1] log1].
  simpl. destruct (encode_all validate self1 log1 messages) as [[rs self2] log2].
  reflexivity.
Qed.

Lemma encode_all_log (subject : string) (messages : list (SerializationContext * PyVal)) :
  forall self log,
    Forall (fun m => _subject_name_func self (fst m) (_schema_name self) = subject)
      messages ->
    exists new,
      snd (encode_all validate self log messages) = log ++ new
      /\ (subject ∈ _known_subjects self -> new = [])
      /\ (forall before ev after,
            new = before ++ ev :: after -> answered ev = true -> after = []).
Proof.
  induction messages as [|[ctx obj] messages IH]; intros self log Hsame.
  - exists []. simpl. rewrite app_nil_r. repeat split; auto.
    intros before ev after H. destruct before; discriminate H.
  - apply Forall_cons in Hsame as [Hsubject Hsame]. simpl in Hsubject.
    rewrite encode_all_cons. cbv zeta. simpl snd.
    pose proof (call_cases self log ctx obj) as Hcall. cbv zeta in Hcall.
    rewrite Hsubject in Hcall.
    destruct Hcall as [(Hself & Hlog & _)
                      | [[Hout (ev & id & Hid & Hans & Hself & Hlog)]
                        | [Hout (ev & Hid & Hans & Hself & Hlog)]]];
      rewrite Hself, Hlog.
    + apply IH, Hsame.
    + destruct (IH (set_registered self id subject) (log ++ [ev]))
        as (new & Hnew & Hknown & _).
      { exact Hsame. }
      rewrite Hknown in Hnew by (simpl; set_solver).
      exists [ev]. rewrite Hnew, app_nil_r. repeat split.
      * intros Hin. contradiction.
      * intros before ev' after H _.
        destruct before as [|x [|y before]]; simpl in H; try discriminate H;
          congruence.
    + destruct (IH self (log ++ [ev])) as (new & Hnew & Hknown & Hlast).
      { exact Hsame. }
      exists (ev :: new). rewrite Hnew, <- app_assoc. repeat split.
      * intros Hin. contradiction.
      * intros before ev' after H Hans'.
        destruct before as [|x before]; simpl in H; injection H as -> ->.
        -- congruence.
        -- eapply Hlast; [reflexivity|exact Hans'].
Qed.

(** After a run of calls the schema id is the latest id the registry
    returned. *)
Lemma encode_all_schema_id (messages : list (SerializationContext * PyVal)) :
  forall self log,
    exists new,
      snd (encode_all validate self log messages) = log ++ new
      /\ _schema_id (snd (fst (encode_all validate self log messages)))
         = latest_id new (_schema_id self).
Proof.
  induction messages as [|[ctx obj] messages IH]; intros self log.
  - exists []. simpl. rewrite app_nil_r. auto.
  - rewrite encode_all_cons. cbv zeta. simpl snd. simpl fst.
    pose proof (call_cases self log ctx obj) as Hcall. cbv zeta in Hcall.
    destruct Hcall as [(Hself & Hlog & _)
                      | [[Hout (ev & id & Hid & Hans & Hself & Hlog)]
                        | [Hout (ev & Hid & Hans & Hself & Hlog)]]];
      rewrite Hself, Hlog.
    + apply IH.
    + destruct (IH (set_registered self id
                      (_subject_name_func self ctx (_schema_name self)))
                  (log ++ [ev])) as (new & Hnew & Hid').
      exists (ev :: new). rewrite Hnew, <- app_assoc. split; [reflexivity|].
      rewrite Hid'. simpl. rewrite Hid. reflexivity.
    + destruct (IH self (log ++ [ev])) as (new & Hnew & Hid').
      exists (ev :: new). rewrite Hnew, <- app_assoc. split; [reflexivity|].
      rewrite Hid'. simpl. rewrite Hid. reflexivity.
Qed.

End Effects.

Lemma answered_at_most_once (new : list RegistryEvent) :
  (forall before ev after,
     new = before ++ ev :: after -> answered ev = true -> after = []) ->
  (length (List.filter answered new) <= 1)%nat.
Proof.
  induction new as [|ev new IH]; intros H; simpl; [lia|].
  destruct (answered ev) eqn:E.
  - rewrite (H [] ev new eq_refl E). simpl. lia.
  - apply IH. intros before ev' after -> Hans.
    apply (H (ev :: before) ev' after eq_refl Hans).
Qed.

(** ** Construction *)

Section Construction.

Import JsonSerializer.

Variable conf : option (gmap string (pyobj strategy)).

(** The defaults updated with [conf]. *)
Local Abbreviation conf_copy :=
  (match conf with
   | Some conf => conf ∪ _default_conf
   | None => _default_conf
   end).

Lemma default_conf_lookup (key : string) :
  _default_conf !! key
  = if decide (key = "auto.register.schemas"%string) then Some (OBool true)
    else if decide (key = "subject.name.strategy"%string)
         then Some (OCallable topic_subject_name_strategy)
         else None.
Proof.
  unfold _default_conf.
  destruct (decide (key = "auto.register.schemas"%string)) as [->|Ha].
  - apply lookup_insert_eq.
  - rewrite lookup_insert_ne by congruence.
    destruct (decide (key = "subject.name.strategy"%string)) as [->|Hs].
    + apply lookup_insert_eq.
    + rewrite lookup_insert_ne by congruence. apply lookup_empty.
Qed.

Lemma conf_copy_lookup (key : string) :
  conf_copy !! key
  = match conf_get conf key with
    | Some o => Some o
    | None => _default_conf !! key
    end.
Proof.
  unfold conf_get. destruct conf as [c|]; [|reflexivity].
  rewrite lookup_union. destruct (c !! key), (_default_conf !! key); reflexivity.
Qed.

Lemma conf_copy_auto_register :
  conf_copy !! "auto.register.schemas"%string = Some (configured_auto_register conf).
Proof.
  rewrite conf_copy_lookup, default_conf_lookup. unfold configured_auto_register.
  destruct (conf_get conf _); reflexivity.
Qed.

Lemma conf_copy_strategy :
  delete "auto.register.schemas"%string conf_copy !! "subject.name.strategy"%string
  = Some (configured_strategy conf).
Proof.
  rewrite lookup_delete_ne by discriminate.
  rewrite conf_copy_lookup, default_conf_lookup. unfold configured_strategy.
  destruct (conf_get conf _); reflexivity.
Qed.

Lemma conf_copy_rest :
  (0 <? size (delete "subject.name.strategy"%string
                (delete "auto.register.schemas"%string conf_copy)))%nat = true
  <-> unrecognized_key conf.
Proof.
  rewrite Nat.ltb_lt. split.
  - intros Hsize.
    destruct (map_choose (delete "subject.name.strategy"%string
                            (delete "auto.register.schemas"%string conf_copy)))
      as (key & o & Hkey).
    { intros Hempty. rewrite Hempty, map_size_empty in Hsize. lia. }
    apply lookup_delete_Some in Hkey as [Hs Hkey].
    apply lookup_delete_Some in Hkey as [Ha Hkey].
    exists key. split; [|split; congruence].
    rewrite conf_copy_lookup, default_conf_lookup in Hkey.
    destruct (conf_get conf key); [eauto|].
    rewrite !decide_False in Hkey by congruence. discriminate.
  - intros (key & [o Hkey] & Ha & Hs).
    assert (Hin : delete "subject.name.strategy"%string
                    (delete "auto.register.schemas"%string conf_copy) !! key
                  = Some o).
    { rewrite !lookup_delete_ne by congruence.
      rewrite conf_copy_lookup, Hkey. reflexivity. }
    destruct (size _) eqn:Hsize; [|lia].
    apply map_size_empty_iff in Hsize. rewrite Hsize, lookup_empty in Hin.
    discriminate.
Qed.

End Construction.

(** ** The scenarios of the specification *)

(** The value with the name Ada is framed with the id the registry gave,
    and read back. *)
Example scenario_ada :
  fst (fst (JsonSerializer.__call__ Demo.validate
              (Demo.new_serializer Demo.counting_registry) [] Demo.ctx Demo.ada))
  = Ok (Some ([x00; x00; x00; x00; x01] ++ json_dumps Demo.ada))
  /\ JsonDeserializer.__call__ Demo.deserializer Demo.ctx
       (Some ([x00; x00; x00; x00; x01] ++ json_dumps Demo.ada))
     = Ok Demo.ada.
Proof. split; vm_compute; reflexivity. Qed.

(** The empty object misses the required name. *)
Example scenario_missing_name :
  fst (fst (JsonSerializer.__call__ Demo.validate
              (Demo.new_serializer Demo.counting_registry) [] Demo.ctx (VDict [])))
  = Raise (SerializationError "'name' is a required property").
Proof. vm_compute. reflexivity. Qed.

(** Construction from the text of the schema gives the instance of the
    examples. *)
Example scenario_construction :
  match JsonSerializer.__init__ Demo.counting_registry Demo.user_schema_str ONone None with
  | Ok self =>
      JsonSerializer._schema_name self = VStr "User"
      /\ JsonSerializer._parsed_schema self = Demo.user_schema
      /\ JsonSerializer._auto_register self = true
      /\ JsonSerializer._schema_id self = None
  | Raise _ => False
  end.
Proof. vm_compute. repeat split. Qed.

(** * The claims *)

(** The frame a call returns: magic byte, the cached id, the document. *)
Lemma frame_shape (validate : PyVal -> PyVal -> option exn)
    (self : JsonSerializer.t) (log : list RegistryEvent)
    (ctx : SerializationContext) (obj : PyVal) (frame : list byte)
    (self' : JsonSerializer.t) (log' : list RegistryEvent) :
  JsonSerializer.__call__ validate self log ctx obj = (Ok (Some frame), self', log') ->
  exists value id b1 b2 b3 b4 b5 document,
    frame = byte_of_Z _MAGIC_BYTE :: b1 :: b2 :: b3 :: b4 :: b5 :: document
    /\ b5 :: document = json_dumps value
    /\ big_endian_u32 [b1; b2; b3; b4] = id
    /\ JsonSerializer._schema_id self' = Some id
    /\ match JsonSerializer._to_dict self with
       | Some to_dict => to_dict ctx obj
       | None => Ok obj
       end = Ok value
    /\ validate value (JsonSerializer._parsed_schema self) = None
    /\ JsonSerializer.ensure_registered self log
         (JsonSerializer._subject_name_func self ctx (JsonSerializer._schema_name self))
       = (None, self', log').
Proof.
  intros H. apply call_returns_frame in H
    as (value & header & Hobj & Hreg & Hv & Hval & Hp & ->).
  apply struct_pack_bI_Ok in Hp as (n & b1 & b2 & b3 & b4 & Hid & Hn & -> & Hbe).
  pose proof (json_dumps_nonempty value) as Hlen.
  destruct (json_dumps value) as [|b5 document] eqn:E; [simpl in Hlen; lia|].
  destruct (ensure_registered_fields _ _ _ _ _ _ Hreg) as (Hd & Hs & _ & _).
  rewrite Hd in Hv. rewrite Hs in Hval.
  exists value, n, b1, b2, b3, b4, b5, document. repeat split; auto.
Qed.

(** A call whose registration check leaves an id that fits 32 bits, on a
    value that is not [None] and whose structured form passes validation,
    returns a frame. *)
Lemma frame_returned (validate : PyVal -> PyVal -> option exn)
    (self : JsonSerializer.t) (log : list RegistryEvent)
    (ctx : SerializationContext) (obj value : PyVal) (id : Z)
    (self' : JsonSerializer.t) (log' : list RegistryEvent) :
  is_None obj = false ->
  JsonSerializer.ensure_registered self log
    (JsonSerializer._subject_name_func self ctx (JsonSerializer._schema_name self))
  = (None, self', log') ->
  match JsonSerializer._to_dict self with
  | Some to_dict => to_dict ctx obj
  | None => Ok obj
  end = Ok value ->
  validate value (JsonSerializer._parsed_schema self) = None ->
  JsonSerializer._schema_id self' = Some id ->
  0 <= id < 2 ^ 32 ->
  exists frame,
    JsonSerializer.__call__ validate self log ctx obj = (Ok (Some frame), self', log').
Proof.
  intros Hobj Hreg Hv Hval Hid Hrange.
  destruct (ensure_registered_fields _ _ _ _ _ _ Hreg) as (Hd & Hs & _ & _).
  destruct (struct_pack_bI_in_range id Hrange) as (b1 & b2 & b3 & b4 & Hp & _).
  eexists. apply (call_frame validate self log ctx obj value); try eassumption.
  - rewrite Hd. exact Hv.
  - rewrite Hs. exact Hval.
  - rewrite Hid. exact Hp.
Qed.




(** C2. The serializer returns [None] for [None] and touches nothing; the
    deserializer does not: [len(None)] raises [TypeError]. *)
Theorem C2_null_sentinel (validate : PyVal -> PyVal -> option exn)
    (self : JsonSerializer.t) (log : list RegistryEvent)
    (de : JsonDeserializer.t) (ctx : SerializationContext) :
  JsonSerializer.__call__ validate self log ctx VNone = (Ok None, self, log)
  /\ JsonDeserializer.__call__ de ctx None
     = Raise (TypeError "object of type 'NoneType' has no len()").
Proof. split; reflexivity. Qed.

(** C3. A frame the serializer returns has at least five bytes, starts
    with the magic byte, and its bytes 1 to 4 are, big endian, the schema
    id the instance holds after the call: the id the registry returned in
    this call, or the one cached before it when no call was made. *)
Theorem C3_frame_validity (validate : PyVal -> PyVal -> option exn)
    (self : JsonSerializer.t) (log : list RegistryEvent)
    (ctx : SerializationContext) (obj : PyVal) (frame : list byte)
    (self' : JsonSerializer.t) (log' : list RegistryEvent) :
  JsonSerializer.__call__ validate self log ctx obj = (Ok (Some frame), self', log') ->
  (5 <= length frame)%nat
  /\ head frame = Some (byte_of_Z _MAGIC_BYTE)
  /\ exists id,
       JsonSerializer._schema_id self' = Some id
       /\ big_endian_u32 (take 4 (drop 1 frame)) = id
       /\ ((log' = log /\ JsonSerializer._schema_id self = Some id)
           \/ exists ev, log' = log ++ [ev] /\ returned_id ev = Some id).
Proof.
  intros H. apply frame_shape in H
    as (value & id & b1 & b2 & b3 & b4 & b5 & document & -> & _ & Hbe & Hid & _ & _ & Hreg).
  split; [simpl; lia|]. split; [reflexivity|].
  exists id. split; [exact Hid|]. split; [exact Hbe|].
  destruct (ensure_registered_cases self log
              (JsonSerializer._subject_name_func self ctx (JsonSerializer._schema_name self)))
    as [[_ E] | [[_ (ev & id' & Hid' & _ & E)] | [_ (ev & e' & _ & _ & E)]]];
    rewrite E in Hreg; try discriminate Hreg; injection Hreg as <- <-.
  - left. auto.
  - right. exists ev. split; [reflexivity|]. simpl in Hid. congruence.
Qed.

Lemma C3_frame_validity_witness :
  exists frame self' log',
    JsonSerializer.__call__ Demo.validate
      (Demo.new_serializer Demo.counting_registry) [] Demo.ctx Demo.ada
    = (Ok (Some frame), self', log')
    /\ (5 <= length frame)%nat
    /\ head frame = Some (byte_of_Z _MAGIC_BYTE)
    /\ big_endian_u32 (take 4 (drop 1 frame)) = 1.
Proof.
  eexists _, _, _. split; [vm_compute; reflexivity|].
  destruct (C3_frame_validity Demo.validate (Demo.new_serializer Demo.counting_registry)
              [] Demo.ctx Demo.ada _ _ _ ltac:(vm_compute; reflexivity))
    as (Hlen & Hhead & id & _ & Hbe & _).
  split; [exact Hlen|]. split; [exact Hhead|]. vm_compute. reflexivity.
Defined.

(** C4. A buffer of five bytes or fewer is refused as too small. *)
Theorem C4_short_buffer (de : JsonDeserializer.t) (ctx : SerializationContext)
    (value : list byte) :
  (length value <= 5)%nat ->
  JsonDeserializer.__call__ de ctx (Some value)
  = Raise (SerializationError_TooSmall value).
Proof.
  intros H. unfold JsonDeserializer.__call__.
  replace (length value <=? 5)%nat with true; [reflexivity|].
  symmetry. apply Nat.leb_le, H.
Qed.

Lemma C4_short_buffer_witness :
  (length [x00; x00] <= 5)%nat
  /\ JsonDeserializer.__call__ Demo.deserializer Demo.ctx (Some [x00; x00])
     = Raise (SerializationError_TooSmall [x00; x00]).
Proof.
  split; [simpl; lia|]. apply (C4_short_buffer Demo.deserializer Demo.ctx [x00; x00]).
  simpl. lia.
Defined.

(** C5, as stated, fails on a buffer of exactly five bytes: it is refused
    as too small before the magic byte is looked at. *)
Lemma C5_counterexample :
  (5 <= length [x01; x00; x00; x00; x01])%nat
  /\ head [x01; x00; x00; x00; x01] <> Some (byte_of_Z _MAGIC_BYTE)
  /\ JsonDeserializer.__call__ Demo.deserializer Demo.ctx
       (Some [x01; x00; x00; x00; x01])
     = Raise (SerializationError_TooSmall [x01; x00; x00; x00; x01])
  /\ JsonDeserializer.__call__ Demo.deserializer Demo.ctx
       (Some [x01; x00; x00; x00; x01])
     <> Raise (SerializationError "message does not start with magic byte").
Proof.
  split; [simpl; lia|]. split; [discriminate|]. split; [reflexivity|discriminate].
Qed.

(** C5, amended. A buffer of more than five bytes whose first byte is not
    the magic byte is refused for its magic byte, whatever follows. *)
Theorem C5_bad_magic (de : JsonDeserializer.t) (ctx : SerializationContext)
    (value : list byte) :
  (5 < length value)%nat ->
  head value <> Some (byte_of_Z _MAGIC_BYTE) ->
  JsonDeserializer.__call__ de ctx (Some value)
  = Raise (SerializationError "message does not start with magic byte").
Proof.
  intros Hlen Hmagic.
  destruct value as [|b0 [|b1 [|b2 [|b3 [|b4 [|b5 document]]]]]];
    simpl in Hlen; try lia.
  rewrite deserializer_call_long.
  destruct (signed_byte b0 =? _MAGIC_BYTE) eqn:E; [|reflexivity].
  apply Z.eqb_eq, signed_byte_magic in E. subst b0. contradiction Hmagic.
  reflexivity.
Qed.

Lemma C5_bad_magic_witness :
  JsonDeserializer.__call__ Demo.deserializer Demo.ctx
    (Some [x01; x00; x00; x00; x01; "{"%byte; "}"%byte])
  = Raise (SerializationError "message does not start with magic byte").
Proof.
  apply (C5_bad_magic Demo.deserializer Demo.ctx
           [x01; x00; x00; x00; x01; "{"%byte; "}"%byte]).
  - simpl. lia.
  - discriminate.
Defined.

(** C6, as stated, fails when the registry raises: the subject is only
    remembered once a call has returned, so two calls for one subject that
    meet a registry that is down make two registry calls. *)
Lemma C6_counterexample :
  let messages := [(Demo.ctx, Demo.ada); (Demo.ctx, Demo.ada)] in
  Forall (fun m => topic_subject_name_strategy (fst m) (VStr "User")
                   = "users-value"%string) messages
  /\ length (snd (encode_all Demo.validate (Demo.new_serializer Demo.registry_down)
                    [] messages)) = 2%nat.
Proof.
  split.
  - repeat constructor.
  - vm_compute. reflexivity.
Qed.

(** C6, amended. Over any number of calls whose contexts resolve to one
    subject, at most one registry call returns, and no registry call is
    made after it; so a registry that never raises is called at most
    once. *)
Theorem C6_cache_idempotence (validate : PyVal -> PyVal -> option exn)
    (self : JsonSerializer.t) (log : list RegistryEvent)
    (messages : list (SerializationContext * PyVal)) (subject : string) :
  Forall (fun m => JsonSerializer._subject_name_func self (fst m)
                     (JsonSerializer._schema_name self) = subject) messages ->
  exists new,
    snd (encode_all validate self log messages) = log ++ new
    /\ (length (List.filter answered new) <= 1)%nat
    /\ (forall before ev after,
          new = before ++ ev :: after -> answered ev = true -> after = [])
    /\ (Forall (fun ev => answered ev = true) new -> (length new <= 1)%nat).
Proof.
  intros Hsame.
  destruct (encode_all_log validate subject messages self log Hsame)
    as (new & Hnew & _ & Hlast).
  exists new. split; [exact Hnew|]. split; [apply answered_at_most_once, Hlast|].
  split; [exact Hlast|].
  intros Hall. destruct new as [|ev new]; [simpl; lia|].
  apply Forall_cons in Hall as [Hev _].
  rewrite (Hlast [] ev new eq_refl Hev). simpl. lia.
Qed.

Lemma C6_cache_idempotence_witness :
  let messages := [(Demo.ctx, Demo.ada); (Demo.ctx, VDict []); (Demo.ctx, Demo.ada)] in
  exists new,
    snd (encode_all Demo.validate (Demo.new_serializer Demo.counting_registry)
           [] messages) = [] ++ new
    /\ (length (List.filter answered new) <= 1)%nat.
Proof.
  intros messages.
  destruct (C6_cache_idempotence Demo.validate
              (Demo.new_serializer Demo.counting_registry) [] messages
              "users-value"%string ltac:(repeat constructor))
    as (new & Hnew & Hone & _).
  exists new. split; [exact Hnew|exact Hone].
Defined.

(** C7, as stated, fails in two ways: [None] is returned as it is, though
    it does not satisfy the schema, and a value that violates the schema
    meets the registry first, whose exception is the one raised. *)
Lemma C7_counterexample :
  Demo.validate VNone Demo.user_schema
  = Some (ValidationError "instance is not of type 'object'")
  /\ fst (fst (JsonSerializer.__call__ Demo.validate
                 (Demo.new_serializer Demo.counting_registry) [] Demo.ctx VNone))
     = Ok None
  /\ Demo.validate (VDict []) Demo.user_schema
     = Some (ValidationError "'name' is a required property")
  /\ fst (fst (JsonSerializer.__call__ Demo.validate
                 (Demo.new_serializer Demo.registry_down) [] Demo.ctx (VDict [])))
     = Raise (CollaboratorError "SchemaRegistryError").
Proof. repeat split. Qed.

(** C7, amended. For a value that is not [None], once the registration
    check has completed, a structured form that violates the schema makes
    the call raise [SerializationError] with the validator's message:
    nothing is returned, and the instance and the log of registry calls
    are those the registration check left. *)
Theorem C7_validation_gate (validate : PyVal -> PyVal -> option exn)
    (self : JsonSerializer.t) (log : list RegistryEvent)
    (ctx : SerializationContext) (obj value : PyVal) (message : string)
    (self1 : JsonSerializer.t) (log1 : list RegistryEvent) :
  is_None obj = false ->
  JsonSerializer.ensure_registered self log
    (JsonSerializer._subject_name_func self ctx (JsonSerializer._schema_name self))
  = (None, self1, log1) ->
  match JsonSerializer._to_dict self with
  | Some to_dict => to_dict ctx obj
  | None => Ok obj
  end = Ok value ->
  validate value (JsonSerializer._parsed_schema self) = Some (ValidationError message) ->
  JsonSerializer.__call__ validate self log ctx obj
  = (Raise (SerializationError message), self1, log1).
Proof.
  intros Hobj Hreg Hv Hval.
  destruct (ensure_registered_fields _ _ _ _ _ _ Hreg) as (Hd & Hs & _ & _).
  unfold JsonSerializer.__call__. rewrite Hobj, Hreg, Hd, Hv, Hs, Hval.
  reflexivity.
Qed.

Lemma C7_validation_gate_witness :
  exists self1 log1,
    JsonSerializer.__call__ Demo.validate
      (Demo.new_serializer Demo.counting_registry) [] Demo.ctx (VDict [])
    = (Raise (SerializationError "'name' is a required property"), self1, log1)
    /\ length log1 = 1%nat.
Proof.
  eexists _, _. split.
  - apply (C7_validation_gate Demo.validate
             (Demo.new_serializer Demo.counting_registry) [] Demo.ctx
             (VDict []) (VDict []) "'name' is a required property");
      [reflexivity | vm_compute; reflexivity | reflexivity | reflexivity].
  - reflexivity.
Defined.




(** C9. An instance holds one schema id, not one per subject: after any
    run of calls it is the id the registry returned last (or the one held
    before, when no call returned), and a call for a subject that is
    already known makes no registry call and frames that id, whichever
    subject it was returned for. *)
Theorem C9_single_cached_id (validate : PyVal -> PyVal -> option exn) :
  (forall (self : JsonSerializer.t) (log : list RegistryEvent)
          (messages : list (SerializationContext * PyVal)),
     exists new,
       snd (encode_all validate self log messages) = log ++ new
       /\ JsonSerializer._schema_id (snd (fst (encode_all validate self log messages)))
          = latest_id new (JsonSerializer._schema_id self))
  /\ (forall (self : JsonSerializer.t) (log : list RegistryEvent)
             (ctx : SerializationContext) (obj : PyVal) (frame : list byte)
             (self' : JsonSerializer.t) (log' : list RegistryEvent),
        JsonSerializer._subject_name_func self ctx (JsonSerializer._schema_name self)
          ∈ JsonSerializer._known_subjects self ->
        JsonSerializer.__call__ validate self log ctx obj
        = (Ok (Some frame), self', log') ->
        self' = self /\ log' = log
        /\ exists id,
             JsonSerializer._schema_id self = Some id
             /\ big_endian_u32 (take 4 (drop 1 frame)) = id).
Proof.
  split.
  - intros self log messages. apply encode_all_schema_id.
  - intros self log ctx obj frame self' log' Hknown H.
    apply frame_shape in H
      as (value & id & b1 & b2 & b3 & b4 & b5 & document & -> & _ & Hbe & Hid & _ & _ & Hreg).
    destruct (ensure_registered_cases self log
                (JsonSerializer._subject_name_func self ctx (JsonSerializer._schema_name self)))
      as [[_ E] | [[Hout _] | [Hout _]]]; try contradiction.
    rewrite E in Hreg. injection Hreg as <- <-.
    split; [reflexivity|]. split; [reflexivity|].
    exists id. split; [exact Hid|exact Hbe].
Qed.

(** The subject "orders-value" was registered last, with id 2; the frame
    for the subject "users-value", registered with id 1, carries 2. *)
Lemma C9_single_cached_id_witness :
  let after := encode_all Demo.validate (Demo.new_serializer Demo.counting_registry) []
                 [(Demo.ctx, Demo.ada); (Demo.ctx_orders, Demo.ada)] in
  let self := snd (fst after) in
  let log := snd after in
  exists frame,
    map returned_id log = [Some 1; Some 2]
    /\ JsonSerializer.__call__ Demo.validate self log Demo.ctx Demo.ada
       = (Ok (Some frame), self, log)
    /\ big_endian_u32 (take 4 (drop 1 frame)) = 2.
Proof.
  intros after self log.
  destruct (JsonSerializer.__call__ Demo.validate self log Demo.ctx Demo.ada)
    as [[r self'] log'] eqn:E.
  assert (Hr : exists frame, r = Ok (Some frame)).
  { replace r with (fst (fst (JsonSerializer.__call__ Demo.validate self log
                                Demo.ctx Demo.ada))) by (rewrite E; reflexivity).
    eexists. vm_compute. reflexivity. }
  destruct Hr as [frame ->].
  destruct (proj2 (C9_single_cached_id Demo.validate) self log Demo.ctx Demo.ada
              frame self' log' ltac:(vm_compute; set_solver) E)
    as (-> & -> & id & Hid & Hbe).
  exists frame. split; [vm_compute; reflexivity|]. split; [reflexivity|].
  rewrite Hbe. vm_compute in Hid. congruence.
Defined.

(** C10. A frame the serializer returns is longer than five bytes, so
    the deserializer gets past its length check and its magic byte check
    and reads the document. *)
Theorem C10_frame_longer_than_header (validate : PyVal -> PyVal -> option exn)
    (self : JsonSerializer.t) (log : list RegistryEvent)
    (ctx : SerializationContext) (obj : PyVal) (frame : list byte)
    (self' : JsonSerializer.t) (log' : list RegistryEvent) :
  JsonSerializer.__call__ validate self log ctx obj = (Ok (Some frame), self', log') ->
  (5 < length frame)%nat
  /\ (length frame <=? 5)%nat = false
  /\ forall (de : JsonDeserializer.t) (ctx' : SerializationContext),
       JsonDeserializer.__call__ de ctx' (Some frame)
       = match json_loads (drop 5 frame) with
         | Raise e => Raise e
         | Ok obj_dict =>
             match JsonDeserializer._from_dict de with
             | Some from_dict => from_dict ctx' obj_dict
             | None => Ok obj_dict
             end
         end.
Proof.
  intros H. apply frame_shape in H
    as (value & id & b1 & b2 & b3 & b4 & b5 & document & -> & _).
  split; [simpl; lia|]. split; [reflexivity|].
  intros de ctx'. rewrite deserializer_call_long. reflexivity.
Qed.

Lemma C10_frame_longer_than_header_witness :
  exists frame self' log',
    JsonSerializer.__call__ Demo.validate
      (Demo.new_serializer Demo.counting_registry) [] Demo.ctx Demo.ada
    = (Ok (Some frame), self', log')
    /\ (5 < length frame)%nat.
Proof.
  eexists _, _, _. split; [vm_compute; reflexivity|].
  apply (C10_frame_longer_than_header Demo.validate
           (Demo.new_serializer Demo.counting_registry) [] Demo.ctx Demo.ada _ _ _
           ltac:(vm_compute; reflexivity)).
Defined.

(** * Further properties *)

(** ** The deserializer *)

(** X1. The deserializer never looks at the schema id: two buffers that
    differ in bytes 1 to 4 only, and hold a document, give the same
    result. *)
Theorem deserializer_ignores_schema_id (de : JsonDeserializer.t)
    (ctx : SerializationContext) (b0 : byte) (id1 id2 document : list byte) :
  length id1 = 4%nat -> length id2 = 4%nat -> document <> [] ->
  JsonDeserializer.__call__ de ctx (Some (b0 :: id1 ++ document))
  = JsonDeserializer.__call__ de ctx (Some (b0 :: id2 ++ document)).
Proof.
  intros H1 H2 Hdoc.
  destruct id1 as [|a1 [|a2 [|a3 [|a4 [|]]]]]; try discriminate H1.
  destruct id2 as [|c1 [|c2 [|c3 [|c4 [|]]]]]; try discriminate H2.
  destruct document as [|b5 document]; [congruence|].
  simpl app. rewrite !deserializer_call_long. reflexivity.
Qed.

Lemma deserializer_ignores_schema_id_witness :
  JsonDeserializer.__call__ Demo.deserializer Demo.ctx
    (Some (x00 :: [x00; x00; x00; x01] ++ json_dumps Demo.ada))
  = JsonDeserializer.__call__ Demo.deserializer Demo.ctx
      (Some (x00 :: [xff; xff; xff; xff] ++ json_dumps Demo.ada)).
Proof.
  apply (deserializer_ignores_schema_id Demo.deserializer Demo.ctx x00
           [x00; x00; x00; x01] [xff; xff; xff; xff] (json_dumps Demo.ada)).
  - reflexivity.
  - reflexivity.
  - vm_compute. discriminate.
Defined.

(** X2. The deserializer does not validate.  Its schema and its registry
    client are never consulted: two instances with the same [from_dict]
    give the same result, or raise the same exception, on every buffer.
    And behind the magic byte and any four bytes of id, a document that
    [json_loads] reads as [V] is returned as [V], or handed to
    [from_dict]. *)
Theorem deserializer_does_not_validate (de de' : JsonDeserializer.t)
    (ctx : SerializationContext) (value : option (list byte))
    (id document : list byte) (V : PyVal) :
  (JsonDeserializer._from_dict de = JsonDeserializer._from_dict de' ->
   JsonDeserializer.__call__ de ctx value = JsonDeserializer.__call__ de' ctx value)
  /\ (length id = 4%nat -> json_loads document = Ok V ->
      JsonDeserializer.__call__ de ctx
        (Some (byte_of_Z _MAGIC_BYTE :: id ++ document))
      = materialized de ctx V).
Proof.
  split.
  - intros Hhook. unfold JsonDeserializer.__call__. rewrite Hhook. reflexivity.
  - intros Hid Hdoc.
    destruct id as [|a1 [|a2 [|a3 [|a4 [|]]]]]; try discriminate Hid.
    destruct document as [|b5 document]; [discriminate Hdoc|].
    simpl app. rewrite deserializer_call_long, Hdoc. reflexivity.
Qed.

(** The list [[1,2]], written without the space [json.dump] puts behind a
    comma, is not the object the schema of the users asks for; it is read
    all the same, as it is by an instance with another schema. *)
Lemma deserializer_does_not_validate_witness :
  Demo.validate (VList [VInt 1; VInt 2]) (JsonDeserializer._schema Demo.deserializer)
  <> None
  /\ JsonDeserializer.__call__ Demo.deserializer Demo.ctx
       (Some (byte_of_Z _MAGIC_BYTE :: [x00; x00; x00; x07]
                ++ bytes_of_chars (chars "[1,2]")))
     = Ok (VList [VInt 1; VInt 2])
  /\ JsonDeserializer.__call__ Demo.deserializer Demo.ctx
       (Some (bytes_of_chars (chars "short")))
     = JsonDeserializer.__call__ Demo.pair_deserializer Demo.ctx
         (Some (bytes_of_chars (chars "short"))).
Proof.
  split; [discriminate|]. split.
  - apply (proj2 (deserializer_does_not_validate Demo.deserializer Demo.deserializer
                    Demo.ctx None [x00; x00; x00; x07]
                    (bytes_of_chars (chars "[1,2]")) (VList [VInt 1; VInt 2])));
      reflexivity.
  - apply (proj1 (deserializer_does_not_validate Demo.deserializer
                    Demo.pair_deserializer Demo.ctx
                    (Some (bytes_of_chars (chars "short"))) [] [] VNone)).
    reflexivity.
Defined.

(** ** The frame *)

(** X3. A returned frame is the header and the document, nothing else:
    its first five bytes unpack to the magic byte and the schema id of
    the instance, which fits 32 bits, and the bytes behind them are
    [json.dumps] of the structured form of the object. *)
Theorem frame_layout (validate : PyVal -> PyVal -> option exn)
    (self : JsonSerializer.t) (log : list RegistryEvent)
    (ctx : SerializationContext) (obj : PyVal) (frame : list byte)
    (self' : JsonSerializer.t) (log' : list RegistryEvent) :
  JsonSerializer.__call__ validate self log ctx obj = (Ok (Some frame), self', log') ->
  exists value id,
    structured self ctx obj = Ok value
    /\ JsonSerializer._schema_id self' = Some id
    /\ 0 <= id < 2 ^ 32
    /\ struct_unpack_bI (take 5 frame) = Ok (_MAGIC_BYTE, id)
    /\ drop 5 frame = json_dumps value.
Proof.
  intros H. apply call_returns_frame in H
    as (value & header & Hobj & Hreg & Hv & Hval & Hp & ->).
  apply struct_pack_bI_Ok in Hp as (n & b1 & b2 & b3 & b4 & Hid & Hn & -> & Hbe).
  destruct (ensure_registered_fields _ _ _ _ _ _ Hreg) as (Hd & _).
  exists value, n. unfold structured. rewrite <- Hd.
  split; [exact Hv|]. split; [exact Hid|]. split; [exact Hn|].
  split; [|reflexivity].
  change (take 5 ([byte_of_Z _MAGIC_BYTE; b1; b2; b3; b4] ++ json_dumps value))
    with [byte_of_Z _MAGIC_BYTE; b1; b2; b3; b4].
  unfold struct_unpack_bI. rewrite Hbe. reflexivity.
Qed.

Lemma frame_layout_witness :
  exists frame self' log' value,
    JsonSerializer.__call__ Demo.validate
      (Demo.new_serializer Demo.counting_registry) [] Demo.ctx Demo.ada
    = (Ok (Some frame), self', log')
    /\ struct_unpack_bI (take 5 frame) = Ok (_MAGIC_BYTE, 1)
    /\ drop 5 frame = json_dumps value.
Proof.
  destruct (frame_layout Demo.validate (Demo.new_serializer Demo.counting_registry)
              [] Demo.ctx Demo.ada _ _ _ ltac:(vm_compute; reflexivity))
    as (value & id & _ & Hid & _ & Hunpack & Hdoc).
  eexists _, _, _, value. split; [vm_compute; reflexivity|].
  split; [|exact Hdoc]. vm_compute. reflexivity.
Defined.



(** ** The registration check, call by call *)

Section Registry.

Import JsonSerializer.

Variable validate : PyVal -> PyVal -> option exn.

Lemma ensure_registered_known self log subject :
  subject ∈ _known_subjects self ->
  ensure_registered self log subject = (None, self, log).
Proof.
  intros Hin. unfold ensure_registered.
  rewrite (bool_decide_eq_true_2 _ Hin). simpl. rewrite !andb_false_r. reflexivity.
Qed.

Lemma ensure_registered_unknown self log subject :
  subject ∉ _known_subjects self ->
  ensure_registered self log subject
  = match returned_id (registry_event self log subject) with
    | Some id =>
        (None, set_registered self id subject,
         log ++ [registry_event self log subject])
    | None =>
        (raised (registry_event self log subject), self,
         log ++ [registry_event self log subject])
    end.
Proof.
  intros Hout. unfold ensure_registered, registry_event.
  rewrite (bool_decide_eq_false_2 _ Hout). simpl. rewrite !andb_true_r.
  destruct (_auto_register self); simpl.
  - destruct (register_schema _ _ _ _); reflexivity.
  - destruct (lookup_schema _ _ _ _); reflexivity.
Qed.

Lemma raised_or_returned (ev : RegistryEvent) :
  (exists id, returned_id ev = Some id /\ raised ev = None /\ answered ev = true)
  \/ (exists e, returned_id ev = None /\ raised ev = Some e /\ answered ev = false).
Proof. destruct ev as [s sc [id|e] | s sc [rs|e]]; simpl; eauto. Qed.

(** The instance and the log after one call. *)
Lemma call_effect self log ctx obj :
  let subject := _subject_name_func self ctx (_schema_name self) in
  let after := __call__ validate self log ctx obj in
  (snd (fst after), snd after)
  = if is_None obj || bool_decide (subject ∈ _known_subjects self)
    then (self, log)
    else (match returned_id (registry_event self log subject) with
          | Some id => set_registered self id subject
          | None => self
          end, log ++ [registry_event self log subject]).
Proof.
  intros subject after. subst after.
  destruct (is_None obj) eqn:Hobj.
  { unfold __call__. rewrite Hobj. reflexivity. }
  pose proof (call_state validate self log ctx obj Hobj) as H. fold subject in H.
  destruct (__call__ validate self log ctx obj) as [[r self'] log'].
  simpl. destruct (decide (subject ∈ _known_subjects self)) as [Hin|Hout].
  - rewrite (bool_decide_eq_true_2 _ Hin).
    rewrite (ensure_registered_known _ _ _ Hin) in H. destruct H as [-> ->].
    reflexivity.
  - rewrite (bool_decide_eq_false_2 _ Hout).
    rewrite (ensure_registered_unknown _ _ _ Hout) in H.
    destruct (returned_id _); destruct H as [-> ->]; reflexivity.
Qed.

(** X5. An exception of the registry goes to the caller as it is: the
    instance is left as it was, the subject is not remembered, and the
    log has the one call that raised. *)
Theorem registry_error_propagates self log ctx obj e :
  let subject := _subject_name_func self ctx (_schema_name self) in
  is_None obj = false ->
  subject ∉ _known_subjects self ->
  raised (registry_event self log subject) = Some e ->
  __call__ validate self log ctx obj
  = (Raise e, self, log ++ [registry_event self log subject]).
Proof.
  intros subject Hobj Hout He. unfold __call__. rewrite Hobj. fold subject.
  rewrite (ensure_registered_unknown _ _ _ Hout).
  destruct (raised_or_returned (registry_event self log subject))
    as [(id & _ & Hr & _) | (e' & Hid & Hr & _)]; [congruence|].
  rewrite Hid, He. reflexivity.
Qed.

(** X6. A call with [None], or for a subject the instance knows, leaves
    the instance and the registry alone, whether it returns or raises. *)
Theorem known_subject_no_effect self log ctx obj :
  is_None obj = true
  \/ _subject_name_func self ctx (_schema_name self) ∈ _known_subjects self ->
  snd (fst (__call__ validate self log ctx obj)) = self
  /\ snd (__call__ validate self log ctx obj) = log.
Proof.
  intros H. pose proof (call_effect self log ctx obj) as E. cbv zeta in E.
  replace (is_None obj
           || bool_decide (_subject_name_func self ctx (_schema_name self)
                             ∈ _known_subjects self)) with true in E.
  - injection E as -> ->. auto.
  - symmetry. apply orb_true_iff. destruct H as [H|H]; [left; exact H|].
    right. apply bool_decide_eq_true_2, H.
Qed.

(** X7. The schema is registered before the message is validated: a
    message that is refused by the validator on the first call for its
    subject has still made the registry call, and the id and the subject
    are kept, so that no later call for the subject goes to the registry. *)
Theorem rejected_message_registers self log ctx obj value id message :
  let subject := _subject_name_func self ctx (_schema_name self) in
  let ev := registry_event self log subject in
  is_None obj = false ->
  subject ∉ _known_subjects self ->
  returned_id ev = Some id ->
  structured self ctx obj = Ok value ->
  validate value (_parsed_schema self) = Some (ValidationError message) ->
  __call__ validate self log ctx obj
  = (Raise (SerializationError message), set_registered self id subject, log ++ [ev])
  /\ forall ctx2 obj2 log2,
       _subject_name_func self ctx2 (_schema_name self) = subject ->
       snd (__call__ validate (set_registered self id subject) log2 ctx2 obj2) = log2.
Proof.
  intros subject ev Hobj Hout Hid Hv Hval. split.
  - unfold __call__. rewrite Hobj. fold subject.
    rewrite (ensure_registered_unknown _ _ _ Hout). fold ev. rewrite Hid.
    simpl _to_dict. simpl _parsed_schema. unfold structured in Hv.
    rewrite Hv, Hval. reflexivity.
  - intros ctx2 obj2 log2 Hsame.
    apply known_subject_no_effect. right. simpl. rewrite Hsame. set_solver.
Qed.


End Registry.

Lemma registry_error_propagates_witness :
  JsonSerializer.__call__ Demo.validate (Demo.new_serializer Demo.registry_down)
    [] Demo.ctx Demo.ada
  = (Raise (CollaboratorError "SchemaRegistryError"),
     Demo.new_serializer Demo.registry_down,
     [] ++ [registry_event (Demo.new_serializer Demo.registry_down) [] "users-value"]).
Proof.
  apply (registry_error_propagates Demo.validate
           (Demo.new_serializer Demo.registry_down) [] Demo.ctx Demo.ada).
  - reflexivity.
  - vm_compute. set_solver.
  - reflexivity.
Defined.

Lemma known_subject_no_effect_witness :
  let self := snd (fst (JsonSerializer.__call__ Demo.validate
                          (Demo.new_serializer Demo.counting_registry) []
                          Demo.ctx Demo.ada)) in
  snd (JsonSerializer.__call__ Demo.validate self
         [register_schema_called "users-value" (JsonSerializer._schema self) (Ok 1)]
         Demo.ctx (VDict []))
  = [register_schema_called "users-value" (JsonSerializer._schema self) (Ok 1)].
Proof.
  intros self.
  apply (known_subject_no_effect Demo.validate self _ Demo.ctx (VDict [])).
  right. vm_compute. set_solver.
Defined.

Lemma rejected_message_registers_witness :
  let self := Demo.new_serializer Demo.counting_registry in
  fst (fst (JsonSerializer.__call__ Demo.validate self [] Demo.ctx (VDict [])))
  = Raise (SerializationError "'name' is a required property")
  /\ snd (JsonSerializer.__call__ Demo.validate
            (JsonSerializer.set_registered self 1 "users-value") [] Demo.ctx Demo.ada)
     = [].
Proof.
  intros self.
  destruct (rejected_message_registers Demo.validate self [] Demo.ctx (VDict [])
              (VDict []) 1 "'name' is a required property"
              eq_refl ltac:(vm_compute; set_solver) eq_refl eq_refl eq_refl)
    as [Hfirst Hlater].
  split.
  - rewrite Hfirst. reflexivity.
  - apply (Hlater Demo.ctx Demo.ada []). reflexivity.
Defined.


(** ** Runs of calls and the registry *)

Section Runs.

Import JsonSerializer.

Variable validate : PyVal -> PyVal -> option exn.

Lemma registry_event_subject self log subject :
  event_subject (registry_event self log subject) = subject.
Proof. unfold registry_event. destruct (_auto_register self); reflexivity. Qed.

Lemma registry_event_mode self log subject :
  is_register (registry_event self log subject) = _auto_register self.
Proof. unfold registry_event. destruct (_auto_register self); reflexivity. Qed.

(** One step of a run: either nothing changes, or one registry call is
    made for a subject that was not known. *)
Lemma run_step self log ctx obj :
  let subject := _subject_name_func self ctx (_schema_name self) in
  let after := __call__ validate self log ctx obj in
  let ev := registry_event self log subject in
  (snd (fst after) = self /\ snd after = log)
  \/ (is_None obj = false /\ (subject ∉ _known_subjects self)
      /\ snd after = log ++ [ev]
      /\ ((exists id, returned_id ev = Some id /\ answered ev = true
                      /\ snd (fst after) = set_registered self id subject)
          \/ (answered ev = false /\ snd (fst after) = self))).
Proof.
  intros subject after ev.
  pose proof (call_effect validate self log ctx obj) as E. cbv zeta in E.
  fold subject after ev in E.
  destruct (is_None obj) eqn:Hobj; simpl in E.
  { left. injection E as -> ->. auto. }
  destruct (decide (subject ∈ _known_subjects self)) as [Hin|Hout].
  { rewrite (bool_decide_eq_true_2 _ Hin) in E. left. injection E as -> ->. auto. }
  rewrite (bool_decide_eq_false_2 _ Hout) in E. right.
  injection E as Hs Hl. split; [reflexivity|]. split; [exact Hout|].
  split; [exact Hl|].
  destruct (raised_or_returned ev) as [(id & Hid & _ & Hans) | (e & Hid & _ & Hans)];
    rewrite Hid in Hs.
  - left. exists id. auto.
  - right. auto.
Qed.

Lemma run_calls self log messages :
  exists new,
    snd (encode_all validate self log messages) = log ++ new
    /\ Forall (fun ev => is_register ev = _auto_register self) new
    /\ (length new <= length (not_None messages))%nat.
Proof.
  revert self log. induction messages as [|[ctx obj] messages IH]; intros self log.
  { exists []. simpl. rewrite app_nil_r. auto. }
  rewrite encode_all_cons. cbv zeta. simpl snd.
  pose proof (run_step self log ctx obj) as Hstep. cbv zeta in Hstep.
  destruct Hstep as [[Hs Hl] | (Hobj & Hout & Hl & Hs)].
  - rewrite Hs, Hl. destruct (IH self log) as (new & Hnew & Hmode & Hlen).
    exists new. split; [exact Hnew|]. split; [exact Hmode|].
    unfold not_None in *. simpl. destruct (negb (is_None obj)); simpl; lia.
  - rewrite Hl.
    set (ev := registry_event self log
                 (_subject_name_func self ctx (_schema_name self))) in *.
    assert (Hauto : _auto_register (snd (fst (__call__ validate self log ctx obj)))
                    = _auto_register self).
    { destruct Hs as [(id & _ & _ & ->) | [_ ->]]; reflexivity. }
    destruct (IH (snd (fst (__call__ validate self log ctx obj))) (log ++ [ev]))
      as (new & Hnew & Hmode & Hlen).
    exists (ev :: new). rewrite Hnew, <- app_assoc. split; [reflexivity|]. split.
    + apply Forall_cons. split; [apply registry_event_mode|].
      rewrite Hauto in Hmode. exact Hmode.
    + unfold not_None in *. simpl. rewrite Hobj. simpl. lia.
Qed.

(** X9. An instance that registers automatically never calls
    [lookup_schema], and one that does not never calls [register_schema],
    over any run of calls. *)
Theorem registry_calls_follow_mode self log messages :
  exists new,
    snd (encode_all validate self log messages) = log ++ new
    /\ Forall (fun ev => is_register ev = _auto_register self) new.
Proof.
  destruct (run_calls self log messages) as (new & Hnew & Hmode & _). eauto.
Qed.

(** X10. A run makes at most one registry call for each message that is
    not [None]. *)
Theorem at_most_one_call_per_message self log messages :
  exists new,
    snd (encode_all validate self log messages) = log ++ new
    /\ (length new <= length (not_None messages))%nat.
Proof.
  destruct (run_calls self log messages) as (new & Hnew & _ & Hlen). eauto.
Qed.

(** X11. The known subjects only grow: after a run they are those known
    before and the subjects of the registry calls that returned; each of
    these was unknown before, and no subject has two calls that
    returned. *)
Theorem known_subjects_grow self log messages :
  exists new,
    snd (encode_all validate self log messages) = log ++ new
    /\ _known_subjects (snd (fst (encode_all validate self log messages)))
       = _known_subjects self
         ∪ list_to_set (map event_subject (List.filter answered new))
    /\ NoDup (map event_subject (List.filter answered new))
    /\ (forall subject,
          subject ∈ map event_subject (List.filter answered new) ->
          subject ∉ _known_subjects self).
Proof.
  revert self log. induction messages as [|[ctx obj] messages IH]; intros self log.
  { exists []. simpl. rewrite app_nil_r. repeat split.
    - rewrite (right_id_L ∅ (∪)). reflexivity.
    - constructor.
    - intros subject H. inversion H. }
  rewrite encode_all_cons. cbv zeta. simpl snd. simpl fst.
  pose proof (run_step self log ctx obj) as Hstep. cbv zeta in Hstep.
  destruct Hstep as [[Hs Hl] | (Hobj & Hout & Hl & Hs)].
  - rewrite Hs, Hl. apply IH.
  - rewrite Hl.
    set (subject := _subject_name_func self ctx (_schema_name self)) in *.
    set (ev := registry_event self log subject) in *.
    destruct Hs as [(id & _ & Hans & Hs) | [Hans Hs]]; rewrite Hs.
    + destruct (IH (set_registered self id subject) (log ++ [ev]))
        as (new & Hnew & Hknown & Hnodup & Hfresh).
      exists (ev :: new). rewrite Hnew, <- app_assoc. split; [reflexivity|].
      simpl List.filter. rewrite Hans. simpl map.
      assert (Hsubject : event_subject ev = subject)
        by apply registry_event_subject.
      rewrite Hsubject. split; [|split].
      * rewrite Hknown.
        change (_known_subjects (set_registered self id subject))
          with ({[subject]} ∪ _known_subjects self).
        rewrite list_to_set_cons.
        rewrite (comm_L (∪) {[subject]} (_known_subjects self)).
        rewrite (assoc_L (∪)). reflexivity.
      * apply NoDup_cons. split; [|exact Hnodup].
        intros Hin. apply (Hfresh subject Hin).
        change (_known_subjects (set_registered self id subject))
          with ({[subject]} ∪ _known_subjects self).
        apply elem_of_union_l, elem_of_singleton. reflexivity.
      * intros s Hin. apply elem_of_cons in Hin as [->|Hin]; [exact Hout|].
        intros Hknown'. apply (Hfresh s Hin).
        change (_known_subjects (set_registered self id subject))
          with ({[subject]} ∪ _known_subjects self).
        apply elem_of_union_r, Hknown'.
    + destruct (IH self (log ++ [ev])) as (new & Hnew & Hknown & Hnodup & Hfresh).
      exists (ev :: new). rewrite Hnew, <- app_assoc. split; [reflexivity|].
      simpl List.filter. rewrite Hans. auto.
Qed.

Lemma init_fresh registry schema_str to_dict conf self :
  __init__ registry schema_str to_dict conf = Ok self ->
  _known_subjects self = ∅ /\ _schema_id self = None.
Proof.
  unfold __init__. cbv zeta.
  destruct (negb (is_ONone to_dict) && negb (callable to_dict)); [discriminate|].
  destruct (_ !! _) as [[]|]; try discriminate.
  destruct (_ !! _) as [[]|]; try discriminate.
  destruct (0 <? _)%nat; [discriminate|].
  destruct (json_loads _) as [[]|]; try discriminate.
  destruct (is_None _); [discriminate|].
  intros [= <-]. auto.
Qed.

Lemma run_holds_id self log messages :
  holds_id self -> holds_id (snd (fst (encode_all validate self log messages))).
Proof.
  revert self log. induction messages as [|[ctx obj] messages IH]; intros self log Hid.
  { exact Hid. }
  rewrite encode_all_cons. cbv zeta. simpl snd. simpl fst. apply IH.
  pose proof (run_step self log ctx obj) as Hstep. cbv zeta in Hstep.
  destruct Hstep as [[-> _] | (_ & _ & _ & [(id & _ & _ & ->) | [_ ->]])];
    try exact Hid.
  intros _. simpl. eauto.
Qed.

(** X12. An instance made by the constructor, after any run of calls,
    holds a schema id whenever its registration check completes:
    [struct.pack] is never given the [None] the constructor put there. *)
Theorem constructed_instance_holds_id registry schema_str to_dict conf self0
    log messages log' subject self1 log1 :
  __init__ registry schema_str to_dict conf = Ok self0 ->
  ensure_registered (snd (fst (encode_all validate self0 log messages))) log' subject
  = (None, self1, log1) ->
  is_Some (_schema_id self1).
Proof.
  intros Hinit Hreg. apply init_fresh in Hinit as [Hknown _].
  assert (Hid : holds_id self0).
  { intros [s Hs]. rewrite Hknown in Hs. set_solver. }
  apply (run_holds_id self0 log messages) in Hid.
  set (self := snd (fst (encode_all validate self0 log messages))) in *.
  destruct (decide (subject ∈ _known_subjects self)) as [Hin|Hout].
  - rewrite (ensure_registered_known _ _ _ Hin) in Hreg. injection Hreg as <- <-.
    apply Hid. eauto.
  - rewrite (ensure_registered_unknown _ _ _ Hout) in Hreg.
    destruct (raised_or_returned (registry_event self log' subject))
      as [(id & Hid' & _ & _) | (e & Hid' & He & _)]; rewrite Hid' in Hreg.
    + injection Hreg as <- <-. simpl. eauto.
    + rewrite He in Hreg. discriminate Hreg.
Qed.

End Runs.

Lemma constructed_instance_holds_id_witness :
  JsonSerializer.__init__ Demo.counting_registry Demo.user_schema_str ONone None
  = Ok (Demo.new_serializer Demo.counting_registry)
  /\ is_Some (JsonSerializer._schema_id
                (snd (fst (JsonSerializer.ensure_registered
                             (snd (fst (encode_all Demo.validate
                                          (Demo.new_serializer Demo.counting_registry)
                                          [] [(Demo.ctx, Demo.ada)])))
                             [] "users-value")))).
Proof.
  assert (Hinit : JsonSerializer.__init__ Demo.counting_registry Demo.user_schema_str
                    ONone None = Ok (Demo.new_serializer Demo.counting_registry)).
  { vm_compute. reflexivity. }
  split; [exact Hinit|].
  destruct (JsonSerializer.ensure_registered _ _ _) as [[o self1] log1] eqn:E.
  assert (Ho : o = None).
  { replace o with (fst (fst (JsonSerializer.ensure_registered
                                (snd (fst (encode_all Demo.validate
                                             (Demo.new_serializer Demo.counting_registry)
                                             [] [(Demo.ctx, Demo.ada)])))
                                [] "users-value"))) by (rewrite E; reflexivity).
    vm_compute. reflexivity. }
  subst o.
  exact (constructed_instance_holds_id Demo.validate Demo.counting_registry
           Demo.user_schema_str ONone None (Demo.new_serializer Demo.counting_registry)
           [] [(Demo.ctx, Demo.ada)] [] "users-value" self1 log1 Hinit E).
Defined.

(** ** The constructors *)

Section Constructors.

Import JsonSerializer.

Variables (registry : SchemaRegistryClient) (schema_text : string)
  (to_dict : pyobj hook) (conf : option (gmap string (pyobj strategy))).

Local Abbreviation conf_copy :=
  (match conf with
   | Some conf => conf ∪ _default_conf
   | None => _default_conf
   end).

Local Abbreviation conf_rest :=
  (delete "subject.name.strategy"%string
     (delete "auto.register.schemas"%string conf_copy)).

Lemma conf_rest_lookup (key : string) (o : pyobj strategy) :
  conf_rest !! key = Some o
  <-> conf_get conf key = Some o
      /\ key <> "auto.register.schemas"%string
      /\ key <> "subject.name.strategy"%string.
Proof.
  rewrite lookup_delete_Some, lookup_delete_Some, conf_copy_lookup, default_conf_lookup.
  split.
  - intros (Hs & Ha & H). split; [|split; congruence].
    destruct (conf_get conf key); [exact H|].
    rewrite !decide_False in H by congruence. discriminate.
  - intros (H & Ha & Hs). split; [congruence|]. split; [congruence|].
    rewrite H. reflexivity.
Qed.

Lemma json_loads_error (s : list byte) (e : exn) :
  json_loads s = Raise e -> exists msg, e = ValueError msg.
Proof.
  unfold json_loads. destruct (scan_once _ _) as [[obj rest]|].
  - destruct (skip_ws rest); [discriminate|]. intros [= <-]. eauto.
  - intros [= <-]. eauto.
Qed.

(** X13. The configuration is checked before the schema text is read, in
    the order [to_dict], flag, strategy, unknown keys: a fault there is
    what is raised, whatever the schema text is. *)
Theorem configuration_checked_first :
  (bad_hook to_dict = true ->
   __init__ registry schema_text to_dict conf
   = Raise (ValueError "to_dict must be callable with the signature to_dict(Serialization Context, object)->dict"))
  /\ (bad_hook to_dict = false ->
      isinstance_bool (configured_auto_register conf) = false ->
      __init__ registry schema_text to_dict conf
      = Raise (ValueError "auto.register.schemas must be a boolean value"))
  /\ (bad_hook to_dict = false ->
      isinstance_bool (configured_auto_register conf) = true ->
      callable (configured_strategy conf) = false ->
      __init__ registry schema_text to_dict conf
      = Raise (ValueError "subject.name.strategy must be callable"))
  /\ (bad_hook to_dict = false ->
      isinstance_bool (configured_auto_register conf) = true ->
      callable (configured_strategy conf) = true ->
      unrecognized_key conf ->
      exists keys,
        __init__ registry schema_text to_dict conf = Raise (ValueError_Unrecognized keys)).
Proof.
  unfold __init__, bad_hook. cbv zeta. repeat split.
  - intros ->. reflexivity.
  - intros -> Hflag. rewrite conf_copy_auto_register.
    destruct (configured_auto_register conf); try reflexivity. discriminate Hflag.
  - intros -> Hflag Hstrat. rewrite conf_copy_auto_register.
    destruct (configured_auto_register conf); try discriminate Hflag.
    rewrite conf_copy_strategy.
    destruct (configured_strategy conf); try reflexivity. discriminate Hstrat.
  - intros -> Hflag Hstrat Hkey. rewrite conf_copy_auto_register.
    destruct (configured_auto_register conf); try discriminate Hflag.
    rewrite conf_copy_strategy.
    destruct (configured_strategy conf); try discriminate Hstrat.
    apply conf_copy_rest in Hkey. rewrite Hkey. eauto.
Qed.

(** X14. The keys named by the error for unrecognized properties are the
    keys of [conf] other than the two known ones, each once. *)
Theorem unrecognized_keys_reported (keys : list string) :
  __init__ registry schema_text to_dict conf = Raise (ValueError_Unrecognized keys) ->
  NoDup keys
  /\ forall key,
       key ∈ keys
       <-> is_Some (conf_get conf key)
           /\ key <> "auto.register.schemas"%string
           /\ key <> "subject.name.strategy"%string.
Proof.
  unfold __init__. cbv zeta.
  destruct (negb (is_ONone to_dict) && negb (callable to_dict)); [discriminate|].
  rewrite conf_copy_auto_register.
  destruct (configured_auto_register conf); try discriminate.
  rewrite conf_copy_strategy.
  destruct (configured_strategy conf); try discriminate.
  destruct (0 <? size conf_rest)%nat.
  - intros [= <-]. split; [apply NoDup_fst_map_to_list|].
    intros key. rewrite list_elem_of_fmap. split.
    + intros ([k o] & -> & Hin). apply elem_of_map_to_list in Hin.
      apply conf_rest_lookup in Hin as (H & Ha & Hs). simpl. eauto.
    + intros ([o H] & Ha & Hs). exists (key, o). split; [reflexivity|].
      apply elem_of_map_to_list, conf_rest_lookup. auto.
  - destruct (json_loads _) as [[]|e] eqn:E; try discriminate.
    + destruct (is_None _); discriminate.
    + intros [= ->]. apply json_loads_error in E as [msg E]. discriminate E.
Qed.

(** X15. With a sound configuration, what [json.loads] reads the schema
    text as decides: a document that is not an object raises
    [AttributeError], an object without a title raises [ValueError], and
    any other object gives a new instance, with the title as schema name,
    the document as parsed schema, no schema id and no known subject. *)
Theorem schema_text_decides (auto_register : bool) (subject_name_func : strategy)
    (schema_dict : PyVal) :
  bad_hook to_dict = false ->
  configured_auto_register conf = OBool auto_register ->
  configured_strategy conf = OCallable subject_name_func ->
  ~ unrecognized_key conf ->
  json_loads (bytes_of_chars (chars schema_text)) = Ok schema_dict ->
  __init__ registry schema_text to_dict conf
  = match schema_dict with
    | VDict items =>
        if is_None (dict_get "title" items)
        then Raise (ValueError "Missing required JSON schema annotation Title")
        else Ok {| _auto_register := auto_register;
                   _known_subjects := ∅;
                   _parsed_schema := VDict items;
                   _registry := registry;
                   _schema := {| schema_str := schema_text; schema_type := "JSON" |};
                   _schema_id := None;
                   _schema_name := dict_get "title" items;
                   _subject_name_func := subject_name_func;
                   _to_dict := match to_dict with
                               | OCallable f => Some f
                               | _ => None
                               end |}
    | _ => Raise (AttributeError "object has no attribute 'get'")
    end.
Proof.
  intros Hhook Hflag Hstrat Hkeys Hjson. unfold __init__. cbv zeta.
  unfold bad_hook in Hhook. rewrite Hhook, conf_copy_auto_register, Hflag.
  rewrite conf_copy_strategy, Hstrat.
  destruct (0 <? size conf_rest)%nat eqn:Hsize.
  { exfalso. apply Hkeys, conf_copy_rest, Hsize. }
  rewrite Hjson. destruct schema_dict; reflexivity.
Qed.

(** What a successful construction has read. *)
Lemma init_schema (self : t) :
  __init__ registry schema_text to_dict conf = Ok self ->
  json_loads (bytes_of_chars (chars schema_text)) = Ok (_parsed_schema self).
Proof.
  unfold __init__. cbv zeta.
  destruct (negb (is_ONone to_dict) && negb (callable to_dict)); [discriminate|].
  destruct (conf_copy !! _) as [[]|]; try discriminate.
  destruct (_ !! _) as [[]|]; try discriminate.
  destruct (0 <? _)%nat; [discriminate|].
  destruct (json_loads _) as [[]|]; try discriminate.
  destruct (is_None _); [discriminate|].
  intros [= <-]. reflexivity.
Qed.

(** X16. The two constructors read the schema text alike: where the
    serializer is constructed, the deserializer is constructed from the
    same text with any usable [from_dict], and holds the same parsed
    schema. *)
Theorem constructors_share_schema (self : t) (registry' : SchemaRegistryClient)
    (from_dict : pyobj hook) :
  __init__ registry schema_text to_dict conf = Ok self ->
  bad_hook from_dict = false ->
  JsonDeserializer.__init__ registry' schema_text from_dict
  = Ok {| JsonDeserializer._schema := _parsed_schema self;
          JsonDeserializer._registry := registry';
          JsonDeserializer._from_dict := match from_dict with
                                         | OCallable f => Some f
                                         | _ => None
                                         end |}.
Proof.
  intros Hinit Hhook. apply init_schema in Hinit.
  unfold JsonDeserializer.__init__. unfold bad_hook in Hhook.
  rewrite Hinit, Hhook. reflexivity.
Qed.

End Constructors.

Lemma configuration_checked_first_witness :
  JsonSerializer.__init__ Demo.counting_registry "not a schema" (OInt 1)
    (Some (<["auto.register.schemas"%string := ONone]> ∅))
  = Raise (ValueError "to_dict must be callable with the signature to_dict(Serialization Context, object)->dict")
  /\ JsonSerializer.__init__ Demo.counting_registry "not a schema" ONone
       (Some (<["auto.register.schemas"%string := ONone]> ∅))
     = Raise (ValueError "auto.register.schemas must be a boolean value").
Proof.
  split.
  - apply (proj1 (configuration_checked_first Demo.counting_registry "not a schema"
                    (OInt 1) (Some (<["auto.register.schemas"%string := ONone]> ∅)))).
    reflexivity.
  - apply (proj1 (proj2 (configuration_checked_first Demo.counting_registry
                           "not a schema" ONone
                           (Some (<["auto.register.schemas"%string := ONone]> ∅)))));
      reflexivity.
Defined.

Lemma unrecognized_keys_reported_witness :
  let conf := Some (<["schema.version"%string := OInt 2]> Demo.lookup_conf) in
  exists keys,
    JsonSerializer.__init__ Demo.counting_registry Demo.user_schema_str ONone conf
    = Raise (ValueError_Unrecognized keys)
    /\ NoDup keys
    /\ "schema.version"%string ∈ keys.
Proof.
  intros conf.
  assert (H : JsonSerializer.__init__ Demo.counting_registry Demo.user_schema_str
                ONone conf = Raise (ValueError_Unrecognized ["schema.version"%string])).
  { vm_compute. reflexivity. }
  exists ["schema.version"%string]. split; [exact H|].
  destruct (unrecognized_keys_reported Demo.counting_registry Demo.user_schema_str
              ONone conf _ H) as [Hnodup Hkeys].
  split; [exact Hnodup|]. apply Hkeys. split; [|split; discriminate].
  exists (OInt 2). reflexivity.
Defined.

Lemma schema_text_decides_witness :
  JsonSerializer.__init__ Demo.counting_registry "7" ONone (Some Demo.lookup_conf)
  = Raise (AttributeError "object has no attribute 'get'")
  /\ JsonSerializer.__init__ Demo.counting_registry "{}" ONone (Some Demo.lookup_conf)
     = Raise (ValueError "Missing required JSON schema annotation Title").
Proof.
  assert (Hkeys : ~ unrecognized_key (Some Demo.lookup_conf)).
  { intros (key & [o H] & Ha & Hs). unfold conf_get, Demo.lookup_conf in H.
    rewrite lookup_insert_ne, lookup_empty in H by congruence. discriminate. }
  split.
  - exact (schema_text_decides Demo.counting_registry "7" ONone
             (Some Demo.lookup_conf) false topic_subject_name_strategy (VInt 7)
             eq_refl eq_refl eq_refl Hkeys eq_refl).
  - exact (schema_text_decides Demo.counting_registry "{}" ONone
             (Some Demo.lookup_conf) false topic_subject_name_strategy (VDict [])
             eq_refl eq_refl eq_refl Hkeys eq_refl).
Defined.

Lemma constructors_share_schema_witness :
  JsonSerializer.__init__ Demo.counting_registry Demo.user_schema_str ONone None
  = Ok (Demo.new_serializer Demo.counting_registry)
  /\ JsonDeserializer.__init__ Demo.registry_down Demo.user_schema_str
       (OCallable Demo.name_from_dict)
     = Ok {| JsonDeserializer._schema := Demo.user_schema;
             JsonDeserializer._registry := Demo.registry_down;
             JsonDeserializer._from_dict := Some Demo.name_from_dict |}.
Proof.
  assert (Hinit : JsonSerializer.__init__ Demo.counting_registry Demo.user_schema_str
                    ONone None = Ok (Demo.new_serializer Demo.counting_registry)).
  { vm_compute. reflexivity. }
  split; [exact Hinit|].
  exact (constructors_share_schema Demo.counting_registry Demo.user_schema_str ONone
           None (Demo.new_serializer Demo.counting_registry) Demo.registry_down
           (OCallable Demo.name_from_dict) Hinit eq_refl).
Defined.
